(** * Product catalogue service: sign-in, authorization gate, product
    handlers

    A shallow embedding of the controllers of the product API
    ([loggin], [validate], [getAll], [getById], [save], [eliminate],
    [actualize], [providerProducts], [sellProducts]) together with the
    Mongoose schemas of [models/product.mjs].

    Conventions of the embedding.
    - A JavaScript [Number] is an IEEE-754 double, the primitive [float]
      of the kernel; [+], [-], [<] and [===] on numbers are its
      operations, rounding and NaN included.
    - [Date.now()] is an argument of the handler that reads it. It is an
      integer of milliseconds whose magnitude stays below 8.64e15, so the
      sum [Date.now() + 60 * 30000] is exact and the clock is an integer
      of [Z].
    - A handler is a function from the request and the collection to the
      response it sends and the collection it leaves behind.
    - An exception is a [Throw] in the [Result] type; every controller
      body sits in a [try_catch].
    - A request body is a JSON object whose values have the JSON types
      that the schemas and the route documentation declare ([Body]): a
      finite number where a number is declared, a list of strings where
      one is declared. A body that needs a conversion (the string "3" for
      a number) is not a value of the type. *)

From Stdlib Require Import ZArith Lia Ascii String Floats.
From stdpp Require Import base strings gmap list option fin_maps.

Local Open Scope string_scope.
Local Open Scope Z_scope.

(** ** JavaScript fragments *)

Module Js.

(** [s.split(" ")]: cuts at every space, keeping empty segments. *)
Fixpoint split_space (s : string) : list string :=
  match s with
  | EmptyString => [EmptyString]
  | String c rest =>
      if Ascii.eqb c " "%char then EmptyString :: split_space rest
      else match split_space rest with
           | seg :: segs => String c seg :: segs
           | [] => [String c EmptyString]
           end
  end.

(** A number: a double. *)
Definition JsNumber := float.

Definition NaN : JsNumber := PrimFloat.nan.

Definition sub (a b : JsNumber) : JsNumber := (a - b)%float.

Definition add (a b : JsNumber) : JsNumber := (a + b)%float.

(** [a < b]; every comparison with NaN is false. *)
Definition lt (a b : JsNumber) : bool := (a <? b)%float.

(** [a <= b]. *)
Definition le (a b : JsNumber) : bool := (a <=? b)%float.

(** [a === b] on numbers. *)
Definition strict_eq (a b : JsNumber) : bool := (a =? b)%float.

End Js.

(** Equality of doubles as values is decided by the kernel's comparison
    of their representations. *)
#[global] Instance float_eq_dec : EqDecision float.
Proof.
  intros x y. destruct (PrimFloat.Leibniz.eqb x y) eqn:E.
  - left. by apply FloatAxioms.Leibniz.eqb_spec.
  - right. intros H. apply FloatAxioms.Leibniz.eqb_spec in H. congruence.
Defined.

(** ** Values, exceptions and results *)

(** Values found in a request body or in a stored document. *)
Inductive Value :=
| VNum (n : float)
| VStr (s : string)
| VStrings (l : list string)
| VMap (m : gmap string string).

#[global] Instance Value_eq_dec : EqDecision Value.
Proof. solve_decision. Defined.

(** The operand of an arithmetic operator: the number, or NaN for
    [undefined]. A typed body holds nothing else under the key of a
    quantity, and a document holds nothing else under [stock], which is a
    [Number] path. *)
Definition to_number (v : option Value) : Js.JsNumber :=
  match v with Some (VNum n) => n | _ => Js.NaN end.

Inductive Exn :=
| ValidationError (paths : list string)
| DuplicateKeyError
| TokenExpiredError
| JwtError (message : string).

Inductive Result (A : Type) :=
| Ok (a : A)
| Throw (e : Exn).
Arguments Ok {A} a.
Arguments Throw {A} e.

#[global] Instance Result_bind : MBind Result := λ A B k r,
  match r with Ok a => k a | Throw e => Throw e end.

(** [try { body } catch (err) { handler }]. *)
Definition try_catch {A} (body : Result A) (handler : Exn → A) : A :=
  match body with Ok a => a | Throw err => handler err end.

(** ** models/product.mjs *)

Inductive SchemaType := TNumber | TString | TStrings | TMapOfString.

#[global] Instance SchemaType_eq_dec : EqDecision SchemaType.
Proof. solve_decision. Defined.

Record PathOptions := {
  type : SchemaType;
  required : bool;
  default : option Value
}.

Abbreviation Schema := (list (string * PathOptions)).

Definition ProductSchema : Schema :=
  [ ("id", {| type := TNumber; required := true; default := None |});
    ("name", {| type := TString; required := true; default := None |});
    ("description",
      {| type := TString; required := false;
         default := Some (VStr "Sin descripcion") |});
    ("category", {| type := TString; required := true; default := None |});
    ("numberCategory",
      {| type := TNumber; required := true; default := None |});
    ("price", {| type := TNumber; required := true; default := None |});
    ("stock",
      {| type := TNumber; required := false;
         default := Some (VNum 50%float) |}) ].

Definition ElectronicsSchema : Schema :=
  [ ("features", {| type := TStrings; required := true; default := None |});
    ("warrantyYears",
      {| type := TNumber; required := false;
         default := Some (VNum 2%float) |}) ].

Definition FoodSchema : Schema :=
  [ ("ingredients",
      {| type := TStrings; required := true; default := None |});
    ("weightOrVolume",
      {| type := TString; required := true; default := None |});
    ("flavors",
      {| type := TStrings; required := false;
         default := Some (VStrings ["Original"]) |});
    ("expirationDays",
      {| type := TNumber; required := false;
         default := Some (VNum 30%float) |}) ].

Definition AutomotiveSchema : Schema :=
  [ ("specs", {| type := TMapOfString; required := true; default := None |});
    ("warrantyYears",
      {| type := TNumber; required := false;
         default := Some (VNum 2%float) |});
    ("modelYear", {| type := TNumber; required := true; default := None |}) ].

Definition ClothingSchema : Schema :=
  [ ("sizesAvaiable",
      {| type := TStrings; required := true; default := None |});
    ("colors", {| type := TStrings; required := true; default := None |});
    ("material", {| type := TString; required := true; default := None |}) ].

(** The base model and its four discriminators. *)
Inductive Model :=
| Product
| ElectronicsProduct
| FoodProduct
| AutomotiveProduct
| ClothingProduct.

#[global] Instance Model_eq_dec : EqDecision Model.
Proof. solve_decision. Defined.

(** The schema added by [Product.discriminator(name, schema)]. *)
Definition discriminator (m : Model) : Schema :=
  match m with
  | Product => []
  | ElectronicsProduct => ElectronicsSchema
  | FoodProduct => FoodSchema
  | AutomotiveProduct => AutomotiveSchema
  | ClothingProduct => ClothingSchema
  end.

(** The value of the discriminator key [__t]. *)
Definition discriminator_name (m : Model) : option string :=
  match m with
  | Product => None
  | ElectronicsProduct => Some "Electronics"
  | FoodProduct => Some "Food"
  | AutomotiveProduct => Some "Automotive"
  | ClothingProduct => Some "Clothing"
  end.

Definition schema_of (m : Model) : Schema :=
  (ProductSchema ++ discriminator m)%list.

Definition paths (s : Schema) : list string := s.*1.


(** ** Documents and the collection *)

(** The [_id] of a stored document, and what a path parameter [:id]
    denotes; a parameter that is not a well-formed identifier is outside
    the model. *)
Definition ObjectId := N.

(** A document in memory. [model] is the model it was built or loaded
    with: it stands for the discriminator key [__t]. *)
Record Document := {
  _id : ObjectId;
  isNew : bool;
  model : Model;
  fields : gmap string Value
}.

(** What the collection keeps under an [_id]. *)
Record Stored := {
  stored_model : Model;
  stored_fields : gmap string Value
}.

Definition hydrate (oid : ObjectId) (s : Stored) : Document :=
  {| _id := oid; isNew := false;
     model := stored_model s; fields := stored_fields s |}.

Definition to_stored (d : Document) : Stored :=
  {| stored_model := model d; stored_fields := fields d |}.

(** Mongoose is not part of the repository. It is embedded as far as the
    controllers use it, following the behaviour of the package on values
    of the declared types. *)

(** The value a path takes when the constructor is given none: the
    [default] of the schema, and the empty array for an array path, which
    Mongoose adds by itself. *)
Definition default_of (o : PathOptions) : option Value :=
  match default o with
  | Some v => Some v
  | None => match type o with TStrings => Some (VStrings []) | _ => None end
  end.

(** The document constructor. The paths of the schema are taken from the
    body, a path the body lacks gets its default, and a key that the schema
    does not declare is dropped (strict mode). *)
Fixpoint construct (s : Schema) (body : gmap string Value)
  : gmap string Value :=
  match s with
  | [] => ∅
  | (p, o) :: rest =>
      match body !! p with
      | Some v => <[p := v]> (construct rest body)
      | None =>
          match default_of o with
          | Some v => <[p := v]> (construct rest body)
          | None => construct rest body
          end
      end
  end.

(** [new M(body)], with the [_id] the driver draws for it. *)
Definition new (m : Model) (body : gmap string Value) (oid : ObjectId)
  : Document :=
  {| _id := oid; isNew := true; model := m;
     fields := construct (schema_of m) body |}.

(** A value that a path of the given type accepts: NaN is not accepted as
    a [Number]. *)
Definition has_type (v : Value) (t : SchemaType) : bool :=
  match v, t with
  | VNum n, TNumber => negb (PrimFloat.is_nan n)
  | VStr _, TString => true
  | VStrings _, TStrings => true
  | VMap _, TMapOfString => true
  | _, _ => false
  end.

(** The [required] validator on a value that is present: an empty string
    does not satisfy it, an empty array does. *)
Definition satisfies_required (v : Value) : bool :=
  match v with VStr s => negb (String.eqb s "") | _ => true end.

(** The validation run by [save]. A path fails when it is required and
    has no value or an empty string, or when its value is not accepted by
    the declared type. *)
Definition path_ok (f : gmap string Value) (p : string * PathOptions)
  : bool :=
  match f !! p.1 with
  | Some v =>
      has_type v (type p.2) && (negb (required p.2) || satisfies_required v)
  | None => negb (required p.2)
  end.

Definition validation_errors (s : Schema) (f : gmap string Value)
  : list string :=
  (filter (λ p, path_ok f p = false) s).*1.

Abbreviation Collection := (gmap ObjectId Stored).

(** Two values of [id] that the unique index takes for the same key. *)
Definition same_key (a b : option Value) : bool :=
  match a, b with
  | Some (VNum x), Some (VNum y) => Js.strict_eq x y
  | _, _ => false
  end.

(** The unique index on [id]: another record holds the same [id]. *)
Definition duplicate_key (oid : ObjectId) (f : gmap string Value)
    (db : Collection) : Prop :=
  map_Exists
    (λ oid' s, oid' ≠ oid ∧
               same_key (stored_fields s !! "id") (f !! "id") = true) db.

#[global] Instance duplicate_key_dec oid f db :
  Decision (duplicate_key oid f db).
Proof. unfold duplicate_key. apply _. Defined.

(** The persistence operations over the collection: find all, find by
    identifier, save (create or overwrite in place) and delete. *)
Definition find (db : Collection) : Result (list Document) :=
  Ok ((λ e, hydrate e.1 e.2) <$> map_to_list db).

Definition findById (id : ObjectId) (db : Collection)
  : Result (option Document) :=
  Ok (hydrate id <$> db !! id).

Definition saved (d : Document) : Document :=
  {| _id := _id d; isNew := false; model := model d; fields := fields d |}.

Definition doc_save (d : Document) (db : Collection)
  : Result (Document * Collection) :=
  match validation_errors (schema_of (model d)) (fields d) with
  | [] =>
      if decide (duplicate_key (_id d) (fields d) db) then
        Throw DuplicateKeyError
      else if isNew d && bool_decide (is_Some (db !! _id d)) then
        Throw DuplicateKeyError
      else Ok (saved d, <[_id d := to_stored d]> db)
  | failed => Throw (ValidationError failed)
  end.

Record DeleteResult := { acknowledged : bool; deletedCount : nat }.

Definition deleteOne (d : Document) (db : Collection)
  : Result (DeleteResult * Collection) :=
  Ok ({| acknowledged := true; deletedCount := 1 |}, delete (_id d) db).

(** [Document.prototype.overwrite], given another document. It goes
    through the keys that the document itself holds, leaves [_id] and the
    discriminator key alone, and sets each key that its own schema
    declares to the value [obj] has under that name, which unsets the key
    when [obj] has none. A key that [obj] alone holds is not copied. *)
Definition overwrite (d obj : Document) : Document :=
  {| _id := _id d; isNew := isNew d; model := model d;
     fields :=
       map_imap
         (λ k v, if bool_decide (k ∈ paths (schema_of (model d)))
                 then fields obj !! k else Some v)
         (fields d) |}.

(** [product.stock]. *)
Definition stock (d : Document) : Js.JsNumber :=
  to_number (fields d !! "stock").

(** [product.stock = n]. *)
Definition set_stock (d : Document) (n : Js.JsNumber) : Document :=
  {| _id := _id d; isNew := isNew d; model := model d;
     fields := <["stock" := VNum n]> (fields d) |}.

(** [product.numberCategory], as the [switch] reads it. *)
Definition numberCategory (d : Document) : option Value :=
  fields d !! "numberCategory".

(** ** Requests and responses *)

(** The type that the schemas declare for a key of a product payload, and
    the route documentation for [nStock] and [sStock]. *)
Definition declared_paths : Schema :=
  (ProductSchema ++ ElectronicsSchema ++ FoodSchema ++ AutomotiveSchema
   ++ ClothingSchema)%list.

Fixpoint options_of (s : Schema) (k : string) : option PathOptions :=
  match s with
  | [] => None
  | (p, o) :: rest => if String.eqb p k then Some o else options_of rest k
  end.

Definition declared_type (k : string) : option SchemaType :=
  if String.eqb k "nStock" || String.eqb k "sStock" then Some TNumber
  else type <$> options_of declared_paths k.

(** A key that a Mongoose map takes: it holds no dot, does not start with
    a dollar sign and is not a reserved property name. *)
Definition map_key (k : string) : bool :=
  match String.index 0 "." k with
  | Some _ => false
  | None =>
      negb (String.prefix "$" k) &&
      negb (String.eqb k "__proto__" || String.eqb k "constructor"
            || String.eqb k "prototype")
  end.

(** A value of a body under a key. A number of a body is finite: JSON
    has no literal for NaN or for an infinity (a literal beyond the range
    of the doubles, which the parser reads as an infinity, is outside the
    model). A key with a declared type holds a value of that type. *)
Definition typed_value (k : string) (v : Value) : bool :=
  match v with VNum n => PrimFloat.is_finite n | _ => true end &&
  match declared_type k, v with
  | None, _ => true
  | Some TNumber, VNum _ => true
  | Some TString, VStr _ => true
  | Some TStrings, VStrings _ => true
  | Some TMapOfString, VMap m =>
      bool_decide (map_Forall (λ key _, map_key key = true) m)
  | Some _, _ => false
  end.

Definition well_typed (m : gmap string Value) : bool :=
  bool_decide (map_Forall (λ k v, typed_value k v = true) m).

(** [req.body]: a JSON object with the declared types. *)
Record Body := {
  object : gmap string Value;
  object_typed : well_typed object = true
}.

#[global] Instance Body_lookup : Lookup string Value Body :=
  λ k b, object b !! k.

#[global] Instance Body_empty : Empty Body :=
  {| object := ∅; object_typed := eq_refl |}.

(** The body that a JSON object is, when its values have the declared
    types; the empty body otherwise. *)
Definition Body_of (m : gmap string Value) : Body :=
  match well_typed m as b return well_typed m = b → Body with
  | true => λ H, {| object := m; object_typed := H |}
  | false => λ _, ∅
  end eq_refl.

(** [new M(req.body)] and friends take the body itself. *)
Definition new_from (m : Model) (b : Body) (oid : ObjectId) : Document :=
  new m (object b) oid.

Record Request := {
  params_id : ObjectId;
  headers_authorization : option string;
  body : Body
}.

(** What the runtime supplies during a request: the clock, and the
    [_id] given to a document constructed by the handler. *)
Record Env := {
  Date_now : Z;
  fresh_id : ObjectId
}.

Inductive Json :=
| JBool (b : bool)
| JString (s : string)
| JNull
| JUndefined
| JDocument (d : Document)
| JDocuments (l : list Document)
| JDeleteResult (r : DeleteResult)
| JErrorMessage (err : Exn).

Record Response := {
  status : Z;
  json : list (string * Json)
}.

Definition is_undefined (j : Json) : bool :=
  match j with JUndefined => true | _ => false end.

(** [res.status(code).json(obj)]: a property whose value is [undefined]
    is left out of the serialised object. *)
Definition res_status_json (code : Z) (obj : list (string * Json))
  : Response :=
  {| status := code;
     json := filter (λ kv, is_undefined kv.2 = false) obj |}.

(** The [message] property of a caught error. *)
Definition message (err : Exn) : Json := JErrorMessage err.

(** The misspelt [err.mesagge] of [getAll]: no such property. *)
Definition mesagge (err : Exn) : Json := JUndefined.

(** ** Sign-in data *)

Record User := { User_mail : string; User_password : string }.

Record SigninRequest := { body_mail : string; body_password : string }.

(** The claims of a token that the controllers write and read. *)
Record TokenPayload := { sub : string; payload_password : string; exp : Z }.

#[global] Instance TokenPayload_eq_dec : EqDecision TokenPayload.
Proof. solve_decision. Defined.

(** [User.findOne({ mail })] over the user collection. *)
Definition findOne (m : string) (users : list User) : option User :=
  List.find (λ u, String.eqb (User_mail u) m) users.

(** What [validate] returns: [true] or one of its two messages. *)
Inductive Validation := Accepted | SessionExpired | NotLogged.

#[global] Instance Validation_eq_dec : EqDecision Validation.
Proof. solve_decision. Defined.

(** [valid == true]: neither message is loosely equal to [true]. *)
Definition equals_true (valid : Validation) : bool :=
  match valid with Accepted => true | _ => false end.

Definition to_json (valid : Validation) : Json :=
  match valid with
  | Accepted => JBool true
  | SessionExpired => JString "Session Expired"
  | NotLogged =>
      JString
        "The session has not been logged in or the token has not been entered."
  end.

(** The property [name] of a serialised object. *)
Fixpoint property (name : string) (obj : list (string * Json))
  : option Json :=
  match obj with
  | [] => None
  | (k, v) :: rest => if String.eqb k name then Some v else property name rest
  end.

(** The token a sign-in response hands out. *)
Definition token_of (r : Response) : option string :=
  match property "token" (json r) with
  | Some (JString t) => Some t
  | _ => None
  end.

(** The response shape of section 7 of the specification: a boolean
    success indicator, and a data payload or a message or error string. *)
Definition is_boolean (j : option Json) : bool :=
  match j with Some (JBool _) => true | _ => false end.

Definition is_text (j : option Json) : bool :=
  match j with
  | Some (JString _) | Some (JErrorMessage _) => true
  | _ => false
  end.

Definition well_shaped (r : Response) : bool :=
  is_boolean (property "state" (json r)) &&
  (bool_decide (is_Some (property "data" (json r))) ||
   is_text (property "message" (json r)) ||
   is_text (property "error" (json r))).

(** A document that [save] accepts into the collection: it satisfies its
    schema and does not clash with the unique index. *)
Definition persistable (d : Document) (db : Collection) : Prop :=
  validation_errors (schema_of (model d)) (fields d) = [] ∧
  ¬ duplicate_key (_id d) (fields d) db ∧
  (isNew d = true → db !! _id d = None).

(** The stored record with its stock replaced. *)
Definition with_stock (s : Stored) (n : Js.JsNumber) : Stored :=
  {| stored_model := stored_model s;
     stored_fields := <["stock" := VNum n]> (stored_fields s) |}.


(** A collection every record of which satisfies its schema and the
    unique index on [id]. *)
Definition consistent (db : Collection) : Prop :=
  ∀ oid s, db !! oid = Some s →
    validation_errors (schema_of (stored_model s)) (stored_fields s) = [] ∧
    ¬ duplicate_key oid (stored_fields s) db.

(** ** The product type registry of the specification *)

Module Registry.

(** The table of section 3: category code to variant. *)
Definition variant (code : option Value) : Model :=
  match code with
  | Some (VNum c) =>
      if Js.strict_eq c 1%float then ElectronicsProduct
      else if Js.strict_eq c 2%float then FoodProduct
      else if Js.strict_eq c 3%float then AutomotiveProduct
      else if Js.strict_eq c 4%float then ClothingProduct
      else Product
  | _ => Product
  end.




(** [resolve(numberCategory, payload)]. *)
Definition resolve (b : Body) (oid : ObjectId) : Document :=
  new_from (variant (b !! "numberCategory")) b oid.

End Registry.

(** ** Sample data *)

Module Sample.

Definition secret : string := "s3cr3t".

Definition token : string := "eyJhbGci.eyJzdWIi.c2lnbmF0".

(** The payload of a token issued at instant 1000. *)
Definition payload : TokenPayload :=
  {| sub := "Token"; payload_password := "hunter2";
     exp := 1000 + 60 * 30000 |}.


Definition verify (t : option string) (k : string) : Result TokenPayload :=
  if decide (t = Some token ∧ k = secret) then Ok payload
  else Throw (JwtError "invalid signature").

Definition users : list User :=
  [ {| User_mail := "ana@example.com"; User_password := "hunter2" |} ].


Definition bearer : option string := Some ("Bearer " +:+ token).

(** The electronics product of the end-to-end example of the
    specification: identifier 1001, stock 10. *)
Definition laptop_body : Body :=
  Body_of
    {[ "id" := VNum 1001%float; "name" := VStr "Laptop";
       "category" := VStr "Tecnologia"; "numberCategory" := VNum 1%float;
       "price" := VNum 1299%float; "stock" := VNum 10%float;
       "features" := VStrings ["x"] ]}.

Definition laptop : Stored :=
  to_stored (new_from ElectronicsProduct laptop_body 7%N).

Definition db : Collection := {[ 7%N := laptop ]}.

Definition env (now : Z) : Env := {| Date_now := now; fresh_id := 8%N |}.

Definition request (id : ObjectId) (auth : option string) (b : Body)
  : Request :=
  {| params_id := id; headers_authorization := auth; body := b |}.

Definition sell (q : float) : Request :=
  request 7%N bearer (Body_of {[ "sStock" := VNum q ]}).

Definition restock (q : float) : Request :=
  request 7%N bearer (Body_of {[ "nStock" := VNum q ]}).

(** A food payload, and the electronics payload without its features. *)
Definition yogurt_body : Body :=
  Body_of
    {[ "id" := VNum 2001%float; "name" := VStr "Yogurt";
       "category" := VStr "Alimentos"; "numberCategory" := VNum 2%float;
       "price" := VNum 3.5%float; "ingredients" := VStrings ["milk"];
       "weightOrVolume" := VStr "200 ml" ]}.


(** The electronics payload with another name, price and feature list,
    and no stock. *)
Definition tablet_body : Body :=
  Body_of
    {[ "id" := VNum 1001%float; "name" := VStr "Tablet";
       "category" := VStr "Tecnologia"; "numberCategory" := VNum 1%float;
       "price" := VNum 499%float; "features" := VStrings ["y"; "z"] ]}.



(** A collection of two products. *)
Definition yogurt : Stored := to_stored (new_from FoodProduct yogurt_body 9%N).

Definition pantry : Collection := {[ 7%N := laptop; 9%N := yogurt ]}.





End Sample.

(** Decides a closed proposition by evaluation. *)
Ltac by_computation :=
  match goal with
  | |- ?P => apply (bool_decide_unpack P); vm_compute; exact I
  end.

(** Proves [persistable] of a sample document. *)
Ltac sample_persistable :=
  split; [vm_compute; reflexivity | split; [by_computation | done]].

(** Proves [consistent] of a sample collection. *)
Ltac sample_consistent :=
  match goal with
  | |- consistent ?db =>
      change (map_Forall
                (λ oid s,
                   validation_errors (schema_of (stored_model s))
                     (stored_fields s) = [] ∧
                   ¬ duplicate_key oid (stored_fields s) db) db);
      by_computation
  end.

(** ** The controllers *)

Section Controllers.

(** [process.env.SECRET], and the [jsonwebtoken] package, which is not part
    of the repository. Its cryptography is left open: [jwt_sign] is
    [jwt.sign], and [jwt_decode] is the part of [jwt.verify] that does not
    read the clock, the presence, format and signature checks that return
    the claims or throw. The controllers are defined, and the properties
    proved, for any such pair. *)
Variable key : string.
Variable jwt_sign : TokenPayload → string → Result string.
Variable jwt_decode : option string → string → Result TokenPayload.

(** [jwt.verify(token, key)] at a given instant: after the checks of
    [jwt_decode], the package reads the [exp] claim as a number of seconds
    and throws when the clock, in whole seconds, has reached it. *)
Definition jwt_verify (token : option string) (k : string) (now : Z)
  : Result TokenPayload :=
  payload ← jwt_decode token k;
  if now / 1000 >=? exp payload then Throw TokenExpiredError else Ok payload.

Definition loggin (req : SigninRequest) (now : Z) (users : list User)
  : Response :=
  let mail := body_mail req in
  let password := body_password req in
  let userlog := findOne mail users in
  try_catch
    (match userlog with
     | Some userlog =>
         if String.eqb (User_password userlog) password then
           token ← jwt_sign {| sub := "Token";
                               payload_password := password;
                               exp := now + 60 * 30000 |} key;
           Ok (res_status_json 200
                 [("state", JBool true); ("message", JString "Logged In");
                  ("token", JString token)])
         else
           Ok (res_status_json 404
                 [("state", JBool false);
                  ("message", JString "Password is Wrong");
                  ("token", JNull)])
     | None =>
         Ok (res_status_json 403
               [("state", JBool false);
                ("message", JString "User Don't Exist");
                ("token", JNull)])
     end)
    (λ err,
      res_status_json 500 [("state", JBool false); ("message", message err)]).

Definition validate (aux : option string) (now : Z) : Result Validation :=
  match aux with
  | Some aux =>
      let token := Js.split_space aux !! 1%nat in
      payload ← jwt_verify token key now;
      if now >? exp payload then Ok SessionExpired else Ok Accepted
  | None => Ok NotLogged
  end.

Definition getAll (req : Request) (env : Env) (db : Collection)
  : Response * Collection :=
  try_catch
    (result ← find db;
     Ok (res_status_json 200
           [("state", JBool true); ("data", JDocuments result)], db))
    (λ err,
      (res_status_json 500
         [("state", JBool false); ("message", mesagge err)], db)).

Definition data_of (result : option Document) : Json :=
  match result with Some d => JDocument d | None => JNull end.

Definition getById (req : Request) (env : Env) (db : Collection)
  : Response * Collection :=
  let id := params_id req in
  try_catch
    (result ← findById id db;
     Ok (res_status_json 200
           [("state", JBool true); ("data", data_of result)], db))
    (λ err,
      (res_status_json 500
         [("state", JBool false); ("error", message err)], db)).

(** The instance [save] builds from the body (its [switch]). *)
Definition save_product (req : Request) (env : Env) : Document :=
  let product := new_from Product (body req) (fresh_id env) in
  match numberCategory product with
  | Some (VNum code) =>
      if Js.strict_eq code 1%float then
        new_from ElectronicsProduct (body req) (fresh_id env)
      else if Js.strict_eq code 2%float then
        new_from FoodProduct (body req) (fresh_id env)
      else if Js.strict_eq code 3%float then
        new_from AutomotiveProduct (body req) (fresh_id env)
      else if Js.strict_eq code 4%float then
        new_from ClothingProduct (body req) (fresh_id env)
      else product
  | _ => product
  end.

Definition save (req : Request) (env : Env) (db : Collection)
  : Response * Collection :=
  try_catch
    (let token := headers_authorization req in
     valid ← validate token (Date_now env);
     if equals_true valid then
       let product := save_product req env in
       '(result, db') ← doc_save product db;
       Ok (res_status_json 201
             [("state", JBool true); ("data", JDocument result)], db')
     else Ok (res_status_json 401 [("error", to_json valid)], db))
    (λ err,
      (res_status_json 500
         [("state", JBool false); ("message", message err)], db)).

Definition eliminate (req : Request) (env : Env) (db : Collection)
  : Response * Collection :=
  let id := params_id req in
  try_catch
    (let token := headers_authorization req in
     valid ← validate token (Date_now env);
     if equals_true valid then
       product ← findById id db;
       match product with
       | Some product =>
           '(result, db') ← deleteOne product db;
           Ok (res_status_json 200
                 [("state", JBool true); ("data", JDeleteResult result)],
               db')
       | None =>
           Ok (res_status_json 404
                 [("state", JBool false);
                  ("message", JString "ID Company Not Found");
                  ("data", JNull)], db)
       end
     else Ok (res_status_json 401 [("error", to_json valid)], db))
    (λ err,
      (res_status_json 500
         [("state", JBool false); ("message", message err)], db)).

(** The instance [actualize] builds from the body (its [switch]). *)
Definition actualize_productN (req : Request) (env : Env) : Document :=
  let productN := new_from Product (body req) (fresh_id env) in
  match numberCategory productN with
  | Some (VNum code) =>
      if Js.strict_eq code 1%float then
        new_from ElectronicsProduct (body req) (fresh_id env)
      else if Js.strict_eq code 2%float then
        new_from FoodProduct (body req) (fresh_id env)
      else if Js.strict_eq code 3%float then
        new_from AutomotiveProduct (body req) (fresh_id env)
      else if Js.strict_eq code 4%float then
        new_from ClothingProduct (body req) (fresh_id env)
      else productN
  | _ => productN
  end.

Definition actualize (req : Request) (env : Env) (db : Collection)
  : Response * Collection :=
  let id := params_id req in
  try_catch
    (let token := headers_authorization req in
     valid ← validate token (Date_now env);
     if equals_true valid then
       product ← findById id db;
       match product with
       | Some product =>
           let productN := actualize_productN req env in
           let product := overwrite product productN in
           '(result, db') ← doc_save product db;
           Ok (res_status_json 201
                 [("state", JBool true); ("data", JDocument result)], db')
       | None =>
           Ok (res_status_json 404
                 [("state", JBool false);
                  ("message", JString "ID Company Not Found");
                  ("data", JNull)], db)
       end
     else Ok (res_status_json 401 [("error", to_json valid)], db))
    (λ err,
      (res_status_json 500
         [("state", JBool false); ("message", message err)], db)).

Definition providerProducts (req : Request) (env : Env) (db : Collection)
  : Response * Collection :=
  let id := params_id req in
  try_catch
    (let token := headers_authorization req in
     valid ← validate token (Date_now env);
     if equals_true valid then
       product ← findById id db;
       match product with
       | Some product =>
           let nStock := to_number (body req !! "nStock") in
           let product := set_stock product (Js.add (stock product) nStock) in
           '(result, db') ← doc_save product db;
           Ok (res_status_json 201
                 [("state", JBool true); ("data", JDocument result)], db')
       | None =>
           Ok (res_status_json 404
                 [("state", JBool false);
                  ("message", JString "ID Product Not Found");
                  ("data", JNull)], db)
       end
     else Ok (res_status_json 401 [("error", to_json valid)], db))
    (λ err,
      (res_status_json 500
         [("state", JBool false); ("message", message err)], db)).

Definition sellProducts (req : Request) (env : Env) (db : Collection)
  : Response * Collection :=
  let id := params_id req in
  try_catch
    (let token := headers_authorization req in
     valid ← validate token (Date_now env);
     if equals_true valid then
       product ← findById id db;
       match product with
       | Some product =>
           let sStock := to_number (body req !! "sStock") in
           if Js.lt (Js.sub (stock product) sStock) 5%float then
             Ok (res_status_json 400
                   [("state", JBool false);
                    ("message", JString "Stock is less than 5");
                    ("data", JNull)], db)
           else
             let product :=
               set_stock product (Js.sub (stock product) sStock) in
             '(result, db') ← doc_save product db;
             Ok (res_status_json 201
                   [("state", JBool true); ("data", JDocument result)], db')
       | None =>
           Ok (res_status_json 404
                 [("state", JBool false);
                  ("message", JString "ID Product Not Found");
                  ("data", JNull)], db)
       end
     else Ok (res_status_json 401 [("error", to_json valid)], db))
    (λ err,
      (res_status_json 500
         [("state", JBool false); ("message", message err)], db)).

(** The seven operations of the product router. *)
Inductive Operation :=
| GetAll | GetById | Save | Eliminate | Actualize
| ProviderProducts | SellProducts.

Definition handle (op : Operation)
  : Request → Env → Collection → Response * Collection :=
  match op with
  | GetAll => getAll
  | GetById => getById
  | Save => save
  | Eliminate => eliminate
  | Actualize => actualize
  | ProviderProducts => providerProducts
  | SellProducts => sellProducts
  end.

(** The operations behind the authorization gate, as the specification
    lists them: all but listing and reading. *)
Definition gated (op : Operation) : bool :=
  match op with GetAll | GetById => false | _ => true end.

(** The [_id] an operation writes under, if it writes: that of the
    document it constructs for [save], the path parameter otherwise. *)
Definition target (op : Operation) (req : Request) (env : Env) : ObjectId :=
  match op with Save => fresh_id env | _ => params_id req end.

(** Reduces the sequencing of a controller, and nothing else. *)
Ltac run_step :=
  lazy beta iota zeta delta [mbind Result_bind equals_true try_catch].

Ltac run_lookup :=
  lazy beta iota zeta
    delta [mbind Result_bind equals_true try_catch fmap option_fmap
           option_map].

(** Unfolds a gated controller up to the verdict of [validate]. *)
Ltac enter_gate Hgate :=
  unfold save, eliminate, actualize, providerProducts, sellProducts;
  lazy zeta; rewrite Hgate; run_step.

Ltac load_product Hfound :=
  unfold findById; rewrite Hfound; run_lookup.

(** Splits a controller along its branches: the verdict of the gate, the
    lookup of the product, the floor test and the outcome of [save]. *)
Ltac handler_cases :=
  unfold handle, getAll, getById, save, eliminate, actualize,
    providerProducts, sellProducts, find, findById, deleteOne;
  lazy zeta;
  repeat match goal with
    | |- context [validate ?h ?n] =>
        destruct (validate h n) as [[| |] | ?] eqn:?; run_step
    | |- context [fmap (hydrate ?i) ?found] =>
        destruct found eqn:?; run_lookup
    | |- context [Js.lt ?a ?b] =>
        destruct (Js.lt a b) eqn:?; run_step
    | |- context [doc_save ?d ?db] =>
        destruct (doc_save d db) as [[? ?] | ?] eqn:?; run_step
    end;
  run_step.

(** ** Supporting lemmas *)

(** *** Comparison and NaN in double arithmetic *)

Lemma Pos_compare_cont_antisym (m n : positive) :
  Pos.compare_cont Eq n m = CompOpp (Pos.compare_cont Eq m n).
Proof. apply (Pos.compare_antisym m n). Qed.

Lemma SFcompare_antisym (a b : spec_float) :
  SFcompare b a = CompOpp <$> SFcompare a b.
Proof.
  destruct a as [sa | sa | | sa ma ea], b as [sb | sb | | sb mb eb]; cbn;
    try done;
    repeat match goal with s : bool |- _ => destruct s end; try done;
    rewrite (Z.compare_antisym ea eb); destruct (ea ?= eb); cbn; try done;
    rewrite (Pos_compare_cont_antisym ma mb);
    by destruct (Pos.compare_cont Eq ma mb).
Qed.

Lemma SFcompare_refl (a : spec_float) :
  a ≠ S754_nan → SFcompare a a = Some Eq.
Proof.
  destruct a as [s | s | | s m e]; try done; try (by destruct s).
  intros _. cbn. rewrite (proj2 (Z.compare_eq_iff e e) eq_refl).
  change (Pos.compare_cont Eq m m) with (m ?= m)%positive.
  rewrite (proj2 (Pos.compare_eq_iff m m) eq_refl). by destruct s.
Qed.

Lemma is_nan_spec (x : float) :
  PrimFloat.is_nan x = true ↔ Prim2SF x = S754_nan.
Proof.
  unfold PrimFloat.is_nan. rewrite FloatAxioms.eqb_spec. unfold SFeqb. split.
  - intros H. destruct (Prim2SF x) eqn:Hx; try done;
      by rewrite SFcompare_refl in H.
  - by intros ->.
Qed.

Lemma is_nan_false (x : float) :
  PrimFloat.is_nan x = false ↔ Prim2SF x ≠ S754_nan.
Proof.
  rewrite <- is_nan_spec. by destruct (PrimFloat.is_nan x).
Qed.

Lemma le_not_lt (x y : float) : Js.le x y = true → Js.lt y x = false.
Proof.
  unfold Js.le, Js.lt.
  rewrite FloatAxioms.leb_spec, FloatAxioms.ltb_spec. unfold SFleb, SFltb.
  rewrite (SFcompare_antisym (Prim2SF x) (Prim2SF y)).
  by destruct (SFcompare (Prim2SF x) (Prim2SF y)) as [[| |] |].
Qed.

Lemma le_not_nan (x y : float) :
  Js.le x y = true → PrimFloat.is_nan y = false.
Proof.
  unfold Js.le. rewrite FloatAxioms.leb_spec, is_nan_false. unfold SFleb.
  intros H Hy. rewrite Hy in H. by destruct (Prim2SF x).
Qed.

Lemma SFcompare_is_Some (a b : spec_float) :
  a ≠ S754_nan → b ≠ S754_nan → is_Some (SFcompare a b).
Proof. destruct a, b; cbn; try done; by eexists. Qed.

Lemma not_lt_le (x y : float) :
  Js.lt y x = false → PrimFloat.is_nan x = false →
  PrimFloat.is_nan y = false → Js.le x y = true.
Proof.
  unfold Js.le, Js.lt.
  rewrite FloatAxioms.leb_spec, FloatAxioms.ltb_spec, !is_nan_false.
  unfold SFleb, SFltb.
  rewrite (SFcompare_antisym (Prim2SF x) (Prim2SF y)).
  intros Hlt Hx Hy.
  destruct (SFcompare_is_Some _ _ Hx Hy) as [c Hc]. rewrite Hc in *.
  by destruct c.
Qed.

(** Rounding never produces NaN. *)
Lemma shr_1_nonneg (r : shr_record) : 0 ≤ shr_m r → 0 ≤ shr_m (shr_1 r).
Proof. destruct r as [[| [p | p |] | p] ? ?]; cbn; lia. Qed.

Lemma iter_shr_1_nonneg (n : positive) (r : shr_record) :
  0 ≤ shr_m r → 0 ≤ shr_m (SpecFloat.iter_pos shr_1 n r).
Proof.
  revert r. induction n as [n IH | n IH |]; intros r Hr; cbn.
  - apply IH, IH. by apply shr_1_nonneg.
  - by apply IH, IH.
  - by apply shr_1_nonneg.
Qed.

Lemma shr_fexp_nonneg (prec emax m e : Z) (l : location) :
  0 ≤ m → 0 ≤ shr_m (shr_fexp prec emax m e l).1.
Proof.
  intros Hm. unfold shr_fexp, shr.
  assert (0 ≤ shr_m (shr_record_of_loc m l)) as Hr.
  { by destruct l as [| []]. }
  destruct (fexp prec emax (Zdigits2 m + e) - e); cbn; try done.
  by apply iter_shr_1_nonneg.
Qed.

Lemma round_nearest_even_nonneg (m : Z) (l : location) :
  0 ≤ m → 0 ≤ round_nearest_even m l.
Proof. destruct l as [| []]; cbn; try done; [destruct (Z.even m) |]; lia. Qed.

Lemma binary_round_aux_not_nan (prec emax : Z) (s : bool) (m e : Z)
    (l : location) :
  0 ≤ m → binary_round_aux prec emax s m e l ≠ S754_nan.
Proof.
  intros Hm. unfold binary_round_aux.
  pose proof (shr_fexp_nonneg prec emax m e l Hm) as H1.
  destruct (shr_fexp prec emax m e l) as [r1 e1]. cbn in H1.
  pose proof (shr_fexp_nonneg prec emax _ e1 loc_Exact
                (round_nearest_even_nonneg _ (loc_of_shr_record r1) H1)) as H2.
  destruct (shr_fexp prec emax _ e1 loc_Exact) as [r2 e2]. cbn in H2.
  destruct (shr_m r2); [done | by destruct (_ <=? _) | lia].
Qed.

Lemma binary_normalize_not_nan (prec emax m e : Z) (s : bool) :
  binary_normalize prec emax m e s ≠ S754_nan.
Proof.
  destruct m; cbn; [done | |]; unfold binary_round;
    destruct (shl_align _ _ _); by apply binary_round_aux_not_nan.
Qed.

Lemma SFadd_not_nan (prec emax : Z) (a b : spec_float) :
  a ≠ S754_nan → (∀ s, b ≠ S754_infinity s) → b ≠ S754_nan →
  SFadd prec emax a b ≠ S754_nan.
Proof.
  intros Ha Hinf Hb.
  destruct a as [sa | sa | | sa ma ea], b as [sb | sb | | sb mb eb];
    try done; cbn; try (by destruct sa, sb); try (by destruct (Hinf sb)).
  apply binary_normalize_not_nan.
Qed.

Lemma SFsub_not_nan (prec emax : Z) (a b : spec_float) :
  a ≠ S754_nan → (∀ s, b ≠ S754_infinity s) → b ≠ S754_nan →
  SFsub prec emax a b ≠ S754_nan.
Proof.
  intros Ha Hinf Hb.
  destruct a as [sa | sa | | sa ma ea], b as [sb | sb | | sb mb eb];
    try done; cbn; try (by destruct sa, sb); try (by destruct (Hinf sb)).
  apply binary_normalize_not_nan.
Qed.

Lemma is_finite_spec (x : float) :
  PrimFloat.is_finite x = true →
  Prim2SF x ≠ S754_nan ∧ ∀ s, Prim2SF x ≠ S754_infinity s.
Proof.
  unfold PrimFloat.is_finite, PrimFloat.is_infinity.
  rewrite negb_true_iff, orb_false_iff. intros [Hnan Hinf].
  apply is_nan_false in Hnan. split; [done |]. intros s Hs.
  rewrite FloatAxioms.eqb_spec, FloatAxioms.abs_spec, Hs in Hinf.
  by vm_compute in Hinf.
Qed.

Lemma add_not_nan (a b : float) :
  PrimFloat.is_nan a = false → PrimFloat.is_finite b = true →
  PrimFloat.is_nan (Js.add a b) = false.
Proof.
  rewrite !is_nan_false. intros Ha [Hb Hinf]%is_finite_spec.
  unfold Js.add. rewrite FloatAxioms.add_spec. by apply SFadd_not_nan.
Qed.

Lemma sub_not_nan (a b : float) :
  PrimFloat.is_nan a = false → PrimFloat.is_finite b = true →
  PrimFloat.is_nan (Js.sub a b) = false.
Proof.
  rewrite !is_nan_false. intros Ha [Hb Hinf]%is_finite_spec.
  unfold Js.sub. rewrite FloatAxioms.sub_spec. by apply SFsub_not_nan.
Qed.

Lemma sub_nan_l (b : float) : PrimFloat.is_nan (Js.sub Js.NaN b) = true.
Proof.
  rewrite is_nan_spec. unfold Js.sub. rewrite FloatAxioms.sub_spec.
  by vm_compute.
Qed.

Lemma sub_nan_r (a : float) : PrimFloat.is_nan (Js.sub a Js.NaN) = true.
Proof.
  rewrite is_nan_spec. unfold Js.sub. rewrite FloatAxioms.sub_spec.
  change (Prim2SF Js.NaN) with S754_nan. by destruct (Prim2SF a).
Qed.

Lemma add_nan_r (a : float) : PrimFloat.is_nan (Js.add a Js.NaN) = true.
Proof.
  rewrite is_nan_spec. unfold Js.add. rewrite FloatAxioms.add_spec.
  change (Prim2SF Js.NaN) with S754_nan. by destruct (Prim2SF a).
Qed.

Lemma lt_nan_l (x y : float) :
  PrimFloat.is_nan x = true → Js.lt x y = false.
Proof.
  rewrite is_nan_spec. unfold Js.lt. rewrite FloatAxioms.ltb_spec.
  by intros ->.
Qed.

Lemma strict_eq_refl (x : float) :
  PrimFloat.is_nan x = false → Js.strict_eq x x = true.
Proof.
  rewrite is_nan_false. unfold Js.strict_eq.
  rewrite FloatAxioms.eqb_spec. unfold SFeqb. intros Hx.
  by rewrite SFcompare_refl.
Qed.



(** *** The header split *)


(** *** Typed bodies *)

Lemma body_typed_value (b : Body) (k : string) (v : Value) :
  b !! k = Some v → typed_value k v = true.
Proof.
  intros Hk. pose proof (object_typed b) as Htyped.
  unfold well_typed in Htyped. apply bool_decide_eq_true_1 in Htyped.
  exact (Htyped k v Hk).
Qed.

Lemma body_number_finite (b : Body) (k : string) (q : float) :
  b !! k = Some (VNum q) → PrimFloat.is_finite q = true.
Proof.
  intros Hk. apply body_typed_value in Hk. unfold typed_value in Hk.
  by apply andb_true_iff in Hk as [Hfinite _].
Qed.

(** *** Validation and the unique index *)

Lemma validation_errors_nil (s : Schema) (f : gmap string Value) :
  validation_errors s f = [] ↔ Forall (λ p, path_ok f p = true) s.
Proof.
  unfold validation_errors. induction s as [|e s IH].
  - split; [constructor | reflexivity].
  - rewrite filter_cons. destruct (path_ok f e) eqn:He.
    + rewrite decide_False by discriminate. rewrite IH. split.
      * intros Hs. by constructor.
      * by inversion 1.
    + rewrite decide_True by reflexivity. split; [discriminate |].
      inversion 1; congruence.
Qed.

Lemma validation_errors_elem (s : Schema) (f : gmap string Value)
    (e : string * PathOptions) :
  e ∈ s → path_ok f e = false → e.1 ∈ validation_errors s f.
Proof.
  intros Hin Hbad. unfold validation_errors.
  apply list_elem_of_fmap. exists e. split; [reflexivity |].
  apply list_elem_of_filter. by split.
Qed.

Lemma validation_errors_path (s : Schema) (f : gmap string Value)
    (e : string * PathOptions) :
  validation_errors s f = [] → e ∈ s → path_ok f e = true.
Proof.
  rewrite validation_errors_nil, Forall_forall. intros Hok Hin.
  by apply Hok.
Qed.

Lemma path_ok_insert (f : gmap string Value) (p : string) (v : Value)
    (e : string * PathOptions) :
  (e.1 = p →
   has_type v (type e.2) && (negb (required e.2) || satisfies_required v)
   = true) →
  path_ok f e = true → path_ok (<[p := v]> f) e = true.
Proof.
  unfold path_ok. intros Hty Hok.
  destruct (decide (p = e.1)) as [-> | Hne].
  - rewrite lookup_insert_eq. by apply Hty.
  - by rewrite lookup_insert_ne.
Qed.

Lemma stock_is_number (m : Model) :
  Forall (λ e, e.1 = "stock" → type e.2 = TNumber ∧ required e.2 = false)
    (schema_of m).
Proof. destruct m; repeat constructor; cbn; intros; done. Qed.

Lemma stock_declared (m : Model) :
  ("stock", {| type := TNumber; required := false;
               default := Some (VNum 50%float) |}) ∈ schema_of m.
Proof.
  unfold schema_of. apply elem_of_app. left.
  repeat (first [ apply list_elem_of_here | apply list_elem_of_further ]).
Qed.

Lemma validation_errors_stock (m : Model) (f : gmap string Value)
    (n : float) :
  PrimFloat.is_nan n = false →
  validation_errors (schema_of m) f = [] →
  validation_errors (schema_of m) (<["stock" := VNum n]> f) = [].
Proof.
  intros Hn. rewrite !validation_errors_nil. intros Hok.
  pose proof (stock_is_number m) as Hty.
  induction Hok as [|e s He Hs IH]; [constructor |].
  inversion Hty as [|? ? Hte Hts]; subst. constructor; [| by apply IH].
  apply path_ok_insert; [| done].
  intros Hp. destruct (Hte Hp) as [-> ->]. cbn. by rewrite Hn.
Qed.

(** The stock of a record that satisfies its schema is a number proper. *)
Lemma valid_stock_not_nan (m : Model) (f : gmap string Value) (s : float) :
  validation_errors (schema_of m) f = [] →
  f !! "stock" = Some (VNum s) → PrimFloat.is_nan s = false.
Proof.
  intros Hvalid Hs.
  pose proof (validation_errors_path _ _ _ Hvalid (stock_declared m)) as Hok.
  unfold path_ok in Hok. cbn [fst snd type required] in Hok.
  rewrite Hs in Hok. cbn in Hok. rewrite andb_true_r in Hok.
  by apply negb_true_iff in Hok.
Qed.

Lemma duplicate_key_stock (oid : ObjectId) (f : gmap string Value) (v : Value)
    (db : Collection) :
  duplicate_key oid (<["stock" := v]> f) db ↔ duplicate_key oid f db.
Proof. unfold duplicate_key. by rewrite lookup_insert_ne. Qed.

Lemma duplicate_key_insert (oid : ObjectId) (f : gmap string Value)
    (x : Stored) (db : Collection) :
  duplicate_key oid f (<[oid := x]> db) ↔ duplicate_key oid f db.
Proof.
  unfold duplicate_key, map_Exists. split.
  - intros (oid' & s & Hs & Hne & Hdup). exists oid', s.
    rewrite lookup_insert_ne in Hs by done. done.
  - intros (oid' & s & Hs & Hne & Hdup). exists oid', s.
    rewrite lookup_insert_ne by done. done.
Qed.

Lemma same_key_sym (a b : option Value) : same_key a b = same_key b a.
Proof.
  destruct a as [[x | | |] |], b as [[y | | |] |]; try done. cbn.
  unfold Js.strict_eq. rewrite !FloatAxioms.eqb_spec. unfold SFeqb.
  rewrite (SFcompare_antisym (Prim2SF x) (Prim2SF y)).
  by destruct (SFcompare (Prim2SF x) (Prim2SF y)) as [[| |] |].
Qed.

Lemma doc_save_persistable (d : Document) (db : Collection) :
  persistable d db →
  doc_save d db = Ok (saved d, <[_id d := to_stored d]> db).
Proof.
  intros (Hvalid & Hunique & Hfresh). unfold doc_save. rewrite Hvalid.
  rewrite decide_False by done.
  destruct (isNew d) eqn:Hnew; cbn; [| reflexivity].
  rewrite bool_decide_eq_false_2; [reflexivity |].
  rewrite (Hfresh eq_refl). by intros [? ?].
Qed.

Lemma doc_save_invalid (d : Document) (db : Collection) (p : string) :
  p ∈ validation_errors (schema_of (model d)) (fields d) →
  doc_save d db =
  Throw (ValidationError (validation_errors (schema_of (model d)) (fields d))).
Proof.
  intros Hp. unfold doc_save.
  destruct (validation_errors _ _); [by apply not_elem_of_nil in Hp | done].
Qed.

(** *** Stock updates of a stored record *)

Lemma persistable_set_stock (id : ObjectId) (product : Stored) (n : float)
    (db : Collection) :
  PrimFloat.is_nan n = false →
  persistable (hydrate id product) db →
  persistable (set_stock (hydrate id product) n) db.
Proof.
  intros Hn (Hvalid & Hunique & _). repeat split; cbn.
  - by apply validation_errors_stock.
  - by rewrite duplicate_key_stock.
  - discriminate.
Qed.

Lemma stock_hydrate (id : ObjectId) (product : Stored) (s : float) :
  stored_fields product !! "stock" = Some (VNum s) →
  stock (hydrate id product) = s.
Proof. intros Hs. unfold stock. cbn. by rewrite Hs. Qed.

Lemma persistable_stock_not_nan (id : ObjectId) (product : Stored)
    (s : float) (db : Collection) :
  persistable (hydrate id product) db →
  stored_fields product !! "stock" = Some (VNum s) →
  PrimFloat.is_nan s = false.
Proof. intros (Hvalid & _) Hs. by eapply valid_stock_not_nan. Qed.

(** ** The stock operations *)

Lemma sellProducts_below (req : Request) (env : Env) (db : Collection)
    (product : Stored) (s q : float) :
  validate (headers_authorization req) (Date_now env) = Ok Accepted →
  db !! params_id req = Some product →
  stored_fields product !! "stock" = Some (VNum s) →
  body req !! "sStock" = Some (VNum q) →
  Js.lt (Js.sub s q) 5%float = true →
  sellProducts req env db =
  (res_status_json 400
     [("state", JBool false); ("message", JString "Stock is less than 5");
      ("data", JNull)], db).
Proof.
  intros Hgate Hfound Hstock Hq Hlow. enter_gate Hgate. load_product Hfound.
  rewrite (stock_hydrate _ _ _ Hstock), Hq. cbn [to_number].
  by rewrite Hlow.
Qed.

Lemma sellProducts_above (req : Request) (env : Env) (db : Collection)
    (product : Stored) (s q : float) :
  validate (headers_authorization req) (Date_now env) = Ok Accepted →
  db !! params_id req = Some product →
  stored_fields product !! "stock" = Some (VNum s) →
  body req !! "sStock" = Some (VNum q) →
  Js.le 5%float (Js.sub s q) = true →
  persistable (hydrate (params_id req) product) db →
  sellProducts req env db =
  (res_status_json 201
     [("state", JBool true);
      ("data",
       JDocument
         (saved (set_stock (hydrate (params_id req) product) (Js.sub s q))))],
   <[params_id req := with_stock product (Js.sub s q)]> db).
Proof.
  intros Hgate Hfound Hstock Hq Hhigh Hok. enter_gate Hgate.
  load_product Hfound.
  rewrite (stock_hydrate _ _ _ Hstock), Hq. cbn [to_number].
  rewrite (le_not_lt _ _ Hhigh).
  rewrite (doc_save_persistable _ _
             (persistable_set_stock _ _ (Js.sub s q) _
                (le_not_nan _ _ Hhigh) Hok)).
  reflexivity.
Qed.

Lemma providerProducts_found (req : Request) (env : Env) (db : Collection)
    (product : Stored) (s q : float) :
  validate (headers_authorization req) (Date_now env) = Ok Accepted →
  body req !! "nStock" = Some (VNum q) →
  db !! params_id req = Some product →
  stored_fields product !! "stock" = Some (VNum s) →
  persistable (hydrate (params_id req) product) db →
  providerProducts req env db =
  (res_status_json 201
     [("state", JBool true);
      ("data",
       JDocument
         (saved (set_stock (hydrate (params_id req) product) (Js.add s q))))],
   <[params_id req := with_stock product (Js.add s q)]> db).
Proof.
  intros Hgate Hq Hfound Hstock Hok. enter_gate Hgate. load_product Hfound.
  rewrite (stock_hydrate _ _ _ Hstock), Hq. cbn [to_number].
  assert (PrimFloat.is_nan (Js.add s q) = false) as Hsum.
  { apply add_not_nan.
    - by eapply persistable_stock_not_nan.
    - by eapply body_number_finite. }
  rewrite (doc_save_persistable _ _
             (persistable_set_stock _ _ (Js.add s q) _ Hsum Hok)).
  reflexivity.
Qed.

Lemma providerProducts_missing (req : Request) (env : Env)
    (db : Collection) :
  validate (headers_authorization req) (Date_now env) = Ok Accepted →
  db !! params_id req = None →
  providerProducts req env db =
  (res_status_json 404
     [("state", JBool false); ("message", JString "ID Product Not Found");
      ("data", JNull)], db).
Proof. intros Hgate Hmissing. enter_gate Hgate. by load_product Hmissing. Qed.

(** *** Tokens and the gate *)


Lemma gate_rejects (op : Operation) (req : Request) (env : Env)
    (db : Collection) (valid : Validation) :
  gated op = true →
  validate (headers_authorization req) (Date_now env) = Ok valid →
  valid ≠ Accepted →
  handle op req env db = (res_status_json 401 [("error", to_json valid)], db).
Proof.
  intros Hgated Hgate Hno.
  destruct op; try discriminate Hgated; cbn [handle]; enter_gate Hgate;
    by destruct valid.
Qed.

Lemma gate_throws (op : Operation) (req : Request) (env : Env)
    (db : Collection) (err : Exn) :
  gated op = true →
  validate (headers_authorization req) (Date_now env) = Throw err →
  handle op req env db =
  (res_status_json 500 [("state", JBool false); ("message", message err)],
   db).
Proof.
  intros Hgated Hgate.
  destruct op; try discriminate Hgated; cbn [handle]; by enter_gate Hgate.
Qed.

(** *** The document constructor *)

Lemma construct_undeclared (s : Schema) (payload : gmap string Value)
    (p : string) :
  p ∉ paths s → construct s payload !! p = None.
Proof.
  unfold paths. induction s as [|[p' o'] s IH]; intros Hp; [done |].
  rewrite fmap_cons, not_elem_of_cons in Hp. destruct Hp as [Hne Hp].
  cbn in Hne. cbn [construct].
  destruct (payload !! p'); [| destruct (default_of o')];
    rewrite ?lookup_insert_ne by done; by apply IH.
Qed.

Lemma construct_declared (s : Schema) (payload : gmap string Value)
    (p : string) (o : PathOptions) :
  NoDup (paths s) → (p, o) ∈ s →
  construct s payload !! p =
  match payload !! p with Some v => Some v | None => default_of o end.
Proof.
  unfold paths. induction s as [|[p' o'] s IH]; intros Hnodup Hin.
  { by apply not_elem_of_nil in Hin. }
  rewrite fmap_cons, NoDup_cons in Hnodup. destruct Hnodup as [Hfresh Hnodup].
  cbn in Hfresh. apply elem_of_cons in Hin as [[= <- <-] | Hin].
  - cbn [construct].
    destruct (payload !! p); [by rewrite lookup_insert_eq |].
    destruct (default_of o); [by rewrite lookup_insert_eq |].
    by apply construct_undeclared.
  - assert (p' ≠ p) as Hne.
    { intros ->. apply Hfresh. apply list_elem_of_fmap. by exists (p, o). }
    cbn [construct].
    destruct (payload !! p'); [| destruct (default_of o')];
      rewrite ?lookup_insert_ne by done; by apply IH.
Qed.


Lemma schema_paths_NoDup (m : Model) : NoDup (paths (schema_of m)).
Proof.
  destruct m; apply (bool_decide_unpack (NoDup _)); vm_compute; exact I.
Qed.


Lemma numberCategory_declared :
  ("numberCategory", {| type := TNumber; required := true; default := None |})
  ∈ schema_of Product.
Proof.
  repeat (first [ apply list_elem_of_here | apply list_elem_of_further ]).
Qed.

Lemma numberCategory_new (b : Body) (oid : ObjectId) :
  numberCategory (new_from Product b oid) = b !! "numberCategory".
Proof.
  unfold numberCategory, new_from, new. cbn [fields].
  rewrite (construct_declared _ _ _ _ (schema_paths_NoDup Product)
             numberCategory_declared).
  unfold lookup at 2, Body_lookup.
  by destruct (object b !! "numberCategory").
Qed.

Lemma save_product_resolve (req : Request) (env : Env) :
  save_product req env = Registry.resolve (body req) (fresh_id env).
Proof.
  unfold save_product, Registry.resolve, Registry.variant. cbv zeta.
  rewrite numberCategory_new. by repeat case_match.
Qed.

Lemma actualize_productN_resolve (req : Request) (env : Env) :
  actualize_productN req env = Registry.resolve (body req) (fresh_id env).
Proof.
  unfold actualize_productN, Registry.resolve, Registry.variant. cbv zeta.
  rewrite numberCategory_new. by repeat case_match.
Qed.





(** *** Saving and updating *)


Lemma overwrite_lookup (d obj : Document) (k : string) :
  fields (overwrite d obj) !! k =
  match fields d !! k with
  | Some v =>
      if bool_decide (k ∈ paths (schema_of (model d))) then fields obj !! k
      else Some v
  | None => None
  end.
Proof.
  unfold overwrite. cbn [fields]. rewrite map_lookup_imap.
  by destruct (fields d !! k).
Qed.


Lemma actualize_found (req : Request) (env : Env) (db : Collection)
    (product : Stored) :
  validate (headers_authorization req) (Date_now env) = Ok Accepted →
  db !! params_id req = Some product →
  persistable
    (overwrite (hydrate (params_id req) product) (actualize_productN req env))
    db →
  actualize req env db =
  (res_status_json 201
     [("state", JBool true);
      ("data",
       JDocument
         (saved (overwrite (hydrate (params_id req) product)
                   (actualize_productN req env))))],
   <[params_id req :=
       to_stored (overwrite (hydrate (params_id req) product)
                    (actualize_productN req env))]> db).
Proof.
  intros Hgate Hfound Hok. enter_gate Hgate. load_product Hfound.
  by rewrite (doc_save_persistable _ _ Hok).
Qed.





(** ** The stock operations *)

(** C1. For every stored product with stock [s] and every sell quantity
    [q] of a body, [sellProducts] computes the double [s - q] and compares
    it with the floor 5: below the floor it answers 400 with the message of
    the source, "Stock is less than 5", and leaves the collection (hence
    the stock) as it was; at or above the floor it stores the record with
    its stock set to exactly the double [s - q] and answers 201 with the
    saved document. For a record that satisfies its schema the two cases
    are exhaustive: the difference is never NaN. *)
Theorem sellProducts_floor (req : Request) (env : Env) (db : Collection)
    (product : Stored) (s q : float) :
  validate (headers_authorization req) (Date_now env) = Ok Accepted →
  db !! params_id req = Some product →
  stored_fields product !! "stock" = Some (VNum s) →
  body req !! "sStock" = Some (VNum q) →
  (Js.lt (Js.sub s q) 5%float = true →
   sellProducts req env db =
   (res_status_json 400
      [("state", JBool false); ("message", JString "Stock is less than 5");
       ("data", JNull)], db)) ∧
  (Js.le 5%float (Js.sub s q) = true →
   persistable (hydrate (params_id req) product) db →
   sellProducts req env db =
   (res_status_json 201
      [("state", JBool true);
       ("data",
        JDocument
          (saved (set_stock (hydrate (params_id req) product)
                    (Js.sub s q))))],
    <[params_id req := with_stock product (Js.sub s q)]> db)) ∧
  (persistable (hydrate (params_id req) product) db →
   Js.lt (Js.sub s q) 5%float = true ∨ Js.le 5%float (Js.sub s q) = true).
Proof.
  intros Hgate Hfound Hstock Hq. split; [| split].
  - intros Hlow. by eapply sellProducts_below.
  - intros Hhigh Hok. by eapply sellProducts_above.
  - intros Hok. destruct (Js.lt (Js.sub s q) 5%float) eqn:Hlt; [by left |].
    right. apply not_lt_le; [done | reflexivity |].
    apply sub_not_nan.
    + by eapply persistable_stock_not_nan.
    + by eapply body_number_finite.
Qed.

(** C7. For every stored product with stock [s] and every quantity [q] of
    a body, negative ones included, [providerProducts] stores the record
    with its stock set to exactly the double [s + q] and answers 201 with
    the saved document; when no record has the identifier it answers 404
    and leaves the collection as it was. *)
Theorem providerProducts_adds (req : Request) (env : Env) (db : Collection)
    (q : float) :
  validate (headers_authorization req) (Date_now env) = Ok Accepted →
  body req !! "nStock" = Some (VNum q) →
  (∀ (product : Stored) (s : float),
     db !! params_id req = Some product →
     stored_fields product !! "stock" = Some (VNum s) →
     persistable (hydrate (params_id req) product) db →
     providerProducts req env db =
     (res_status_json 201
        [("state", JBool true);
         ("data",
          JDocument
            (saved (set_stock (hydrate (params_id req) product)
                      (Js.add s q))))],
      <[params_id req := with_stock product (Js.add s q)]> db)) ∧
  (db !! params_id req = None →
   providerProducts req env db =
   (res_status_json 404
      [("state", JBool false); ("message", JString "ID Product Not Found");
       ("data", JNull)], db)).
Proof.
  intros Hgate Hq. split.
  - intros product s Hfound Hstock Hok. by apply providerProducts_found.
  - intros Hmissing. by apply providerProducts_missing.
Qed.



(** ** Tokens and the authorization gate *)


(** C3. Every operation but [getAll] and [getById] acts on the collection
    only after [validate] returned [true]. For the two other verdicts,
    a missing header and an expired credential, the operation answers
    401 with the message of [validate] under [error] and leaves the
    collection as it was; an operation that changes the collection was
    accepted by the gate. [getAll] and [getById] do not consult the gate:
    their outcome is the same for every header and every clock. *)
Theorem gate_guards_operations (op : Operation) (req : Request) (env : Env)
    (db : Collection) :
  (gated op = true →
   (∀ valid,
      validate (headers_authorization req) (Date_now env) = Ok valid →
      valid ≠ Accepted →
      ∃ reason,
        to_json valid = JString reason ∧
        handle op req env db =
        (res_status_json 401 [("error", JString reason)], db)) ∧
   (headers_authorization req = None →
    validate (headers_authorization req) (Date_now env) = Ok NotLogged) ∧
   ((handle op req env db).2 ≠ db →
    validate (headers_authorization req) (Date_now env) = Ok Accepted)) ∧
  (gated op = false →
   ∀ (auth : option string) (now : Z),
     handle op
       {| params_id := params_id req; headers_authorization := auth;
          body := body req |}
       {| Date_now := now; fresh_id := fresh_id env |} db
     = handle op req env db).
Proof.
  split.
  - intros Hgated. split; [| split].
    + intros valid Hgate Hno.
      rewrite (gate_rejects _ _ _ _ _ Hgated Hgate Hno).
      destruct valid; [done | by eexists | by eexists].
    + by intros ->.
    + intros Hchanged.
      destruct (validate _ _) as [valid | err] eqn:Hgate.
      * destruct (decide (valid = Accepted)) as [-> | Hno]; [done |].
        by rewrite (gate_rejects _ _ _ _ _ Hgated Hgate Hno) in Hchanged.
      * by rewrite (gate_throws _ _ _ _ _ Hgated Hgate) in Hchanged.
  - intros Hopen auth now. by destruct op.
Qed.

(** ** Reading a product *)

(** C5, as the code behaves. For an identifier with no stored product,
    [getById] answers 200 with [state: true] and [data: null]; it has no
    not-found branch. *)
Theorem getById_missing_is_success (req : Request) (env : Env)
    (db : Collection) :
  db !! params_id req = None →
  getById req env db =
  (res_status_json 200 [("state", JBool true); ("data", JNull)], db).
Proof. intros Hmissing. unfold getById. cbv zeta. by load_product Hmissing. Qed.

(** ** The shape of a response *)

(** C9, as the code behaves. The answer of a gated operation to a
    request that the gate rejects is the object [{ error: valid }]: it
    has no [state] property, so it is not of the shape of section 7. *)
Theorem unauthorized_response_lacks_state (op : Operation) (req : Request)
    (env : Env) (db : Collection) :
  gated op = true →
  headers_authorization req = None →
  property "state" (json (handle op req env db).1) = None ∧
  well_shaped (handle op req env db).1 = false.
Proof.
  intros Hgated Hnone.
  assert (Hgate : validate (headers_authorization req) (Date_now env)
                  = Ok NotLogged) by by rewrite Hnone.
  by rewrite (gate_rejects _ _ _ _ _ Hgated Hgate).
Qed.

(** ** The product type registry *)


(** ** Updating a product *)


(** ** Further properties of the controllers *)

Lemma doc_save_succeeds_iff (d : Document) (db : Collection) :
  (∃ r, doc_save d db = Ok r) ↔ persistable d db.
Proof.
  split; [| intros Hok; eexists; by apply doc_save_persistable].
  intros [r Hsave]. unfold doc_save in Hsave.
  destruct (validation_errors _ _) eqn:Hvalid; [| discriminate].
  case_decide as Hdup; [discriminate |].
  split; [done | split; [done |]]. intros Hnew. rewrite Hnew in Hsave.
  cbn in Hsave. case_bool_decide as Hused; [discriminate |].
  destruct (db !! _id d); [| done]. by destruct Hused.
Qed.

Lemma doc_save_Ok (d r : Document) (db db' : Collection) :
  doc_save d db = Ok (r, db') →
  r = saved d ∧ db' = <[_id d := to_stored d]> db ∧ persistable d db.
Proof.
  intros Hsave.
  assert (Hok : persistable d db) by (apply doc_save_succeeds_iff; eauto).
  rewrite (doc_save_persistable _ _ Hok) in Hsave. by injection Hsave as <- <-.
Qed.

(** What a controller can do to the collection: nothing, delete the
    product of the path parameter ([eliminate], with status 200), or save
    one document under the target of the operation (with status 201). *)
Lemma handle_collection (op : Operation) (req : Request) (env : Env)
    (db : Collection) :
  ((handle op req env db).2 = db ∧ status (handle op req env db).1 ≠ 201 ∧
   (op = Eliminate → status (handle op req env db).1 ≠ 200)) ∨
  (op = Eliminate ∧ is_Some (db !! params_id req) ∧
   (handle op req env db).2 = delete (params_id req) db ∧
   status (handle op req env db).1 = 200) ∨
  (∃ d, gated op = true ∧ _id d = target op req env ∧ persistable d db ∧
        (handle op req env db).2 = <[_id d := to_stored d]> db ∧
        status (handle op req env db).1 = 201).
Proof.
  remember (handle op req env db) as out eqn:Hout. revert Hout.
  destruct op; handler_cases; intros ->;
    cbn [fst snd status res_status_json];
    try (left; by repeat split);
    try (right; left; by repeat split);
    right; right;
    match goal with
    | H : doc_save ?d _ = Ok _ |- _ =>
        apply doc_save_Ok in H as (-> & -> & Hok); exists d;
        refine (conj eq_refl (conj _ (conj Hok (conj eq_refl eq_refl))))
    end; first [reflexivity | by rewrite save_product_resolve].
Qed.

Lemma consistent_insert (db : Collection) (id : ObjectId) (s : Stored) :
  consistent db →
  validation_errors (schema_of (stored_model s)) (stored_fields s) = [] →
  ¬ duplicate_key id (stored_fields s) db →
  consistent (<[id := s]> db).
Proof.
  intros Hdb Hvalid Hunique oid s' Hs'.
  destruct (decide (oid = id)) as [-> | Hne].
  - rewrite lookup_insert_eq in Hs'. injection Hs' as <-.
    split; [done |]. by rewrite duplicate_key_insert.
  - rewrite lookup_insert_ne in Hs' by done.
    destruct (Hdb oid s' Hs') as [Hvalid' Hunique']. split; [done |].
    intros (oid'' & s'' & Hs'' & Hne'' & Hsame).
    destruct (decide (oid'' = id)) as [-> | Hne3].
    + rewrite lookup_insert_eq in Hs''. injection Hs'' as <-.
      apply Hunique. exists oid, s'. repeat split; [done | done |].
      by rewrite same_key_sym.
    + rewrite lookup_insert_ne in Hs'' by done.
      apply Hunique'. by exists oid'', s''.
Qed.

Lemma consistent_delete (db : Collection) (id : ObjectId) :
  consistent db → consistent (delete id db).
Proof.
  intros Hdb oid s Hs. apply lookup_delete_Some in Hs as [Hne Hs].
  destruct (Hdb oid s Hs) as [Hvalid Hunique]. split; [done |].
  intros (oid' & s' & Hs' & Hne' & Hdup).
  apply lookup_delete_Some in Hs' as [_ Hs'].
  apply Hunique. by exists oid', s'.
Qed.

(** X1. A controller writes under one [_id] at most, the target of the
    operation: every other record of the collection is left as it was. *)
Theorem handle_frame (op : Operation) (req : Request) (env : Env)
    (db : Collection) (k : ObjectId) :
  k ≠ target op req env →
  (handle op req env db).2 !! k = db !! k.
Proof.
  intros Hk.
  destruct (handle_collection op req env db)
    as [(-> & _) | [(-> & _ & -> & _) | (d & _ & Hd & _ & -> & _)]].
  - reflexivity.
  - by rewrite lookup_delete_ne.
  - rewrite lookup_insert_ne; [done | by rewrite Hd].
Qed.

(** X2. The collection changes only with a request that is answered 201,
    or 200 by [eliminate]: a request answered 400, 401, 404 or 500 leaves
    every record as it was, and so do [getAll] and [getById] always. *)
Theorem handle_failure_keeps_collection (op : Operation) (req : Request)
    (env : Env) (db : Collection) :
  (gated op = false → (handle op req env db).2 = db) ∧
  (status (handle op req env db).1 ≠ 201 →
   ¬ (op = Eliminate ∧ status (handle op req env db).1 = 200) →
   (handle op req env db).2 = db).
Proof.
  destruct (handle_collection op req env db)
    as [(Hsame & _) | [(-> & _ & _ & H200) | (d & Hgated & _ & _ & _ & H201)]].
  - by split.
  - split; [discriminate |]. intros _ Hno. destruct Hno. by split.
  - split; [by rewrite Hgated |]. by intros Hno.
Qed.

(** X3. Consistency of the collection, every record satisfying its schema
    and no two records sharing an [id], is an invariant of the seven
    operations. *)
Theorem handle_consistent (op : Operation) (req : Request) (env : Env)
    (db : Collection) :
  consistent db → consistent (handle op req env db).2.
Proof.
  intros Hdb.
  destruct (handle_collection op req env db)
    as [(-> & _) | [(_ & _ & -> & _) | (d & _ & _ & Hok & -> & _)]].
  - done.
  - by apply consistent_delete.
  - destruct Hok as (Hvalid & Hunique & _). by apply consistent_insert.
Qed.

(** X4. The status of a response is one of 200, 201, 400, 401, 404 and
    500. A response lacks the [state] property exactly when its status is
    401, and a [state] that is present is [true] exactly for 200 and 201. *)
Theorem response_state_and_status (op : Operation) (req : Request)
    (env : Env) (db : Collection) :
  status (handle op req env db).1 ∈ [200; 201; 400; 401; 404; 500] ∧
  (property "state" (json (handle op req env db).1) = None ↔
   status (handle op req env db).1 = 401) ∧
  (∀ b, property "state" (json (handle op req env db).1) = Some (JBool b) →
        (b = true ↔ status (handle op req env db).1 = 200 ∨
                    status (handle op req env db).1 = 201)).
Proof.
  remember (handle op req env db) as out eqn:Hout. revert Hout.
  destruct op; handler_cases; intros ->;
    cbn [fst snd status json res_status_json];
    (split;
     [ repeat (first [ apply list_elem_of_here | apply list_elem_of_further ])
     | split; [split; done |]]);
    intros b [= <-]; split; (done || (intros [? | ?]; done) || (by left)
                              || (by right)).
Qed.

Lemma stock_NaN_invalid (m : Model) (f : gmap string Value) (n : float) :
  PrimFloat.is_nan n = true →
  "stock" ∈ validation_errors (schema_of m) (<["stock" := VNum n]> f).
Proof.
  intros Hn. apply (validation_errors_elem _ _ _ (stock_declared m)).
  unfold path_ok. cbn [fst snd type]. rewrite lookup_insert_eq. cbn.
  by rewrite Hn.
Qed.

(** X5. The floor is an invariant of [sellProducts]: whenever it answers
    201, the stock it stored for the product is a number and is at least
    5, whatever the request and the collection. *)
Theorem sellProducts_keeps_floor (req : Request) (env : Env)
    (db : Collection) :
  status (sellProducts req env db).1 = 201 →
  ∃ n, ((sellProducts req env db).2 !! params_id req)
         ≫= (λ p, stored_fields p !! "stock") = Some (VNum n) ∧
       Js.le 5%float n = true.
Proof.
  remember (sellProducts req env db) as out eqn:Hout. revert Hout.
  handler_cases; intros ->; cbn [fst snd status res_status_json];
    try discriminate.
  intros _.
  match goal with
  | H : doc_save _ _ = Ok _ |- _ => apply doc_save_Ok in H as (_ & -> & Hok)
  end.
  destruct Hok as (Hvalid & _). cbn [set_stock hydrate _id model fields] in *.
  rewrite lookup_insert_eq.
  cbn [mbind option_bind to_stored stored_fields set_stock fields].
  rewrite lookup_insert_eq. eexists. split; [reflexivity |].
  apply not_lt_le; [done | reflexivity |].
  by apply (valid_stock_not_nan _ _ _ Hvalid), lookup_insert_eq.
Qed.

(** X6. A stock request without its quantity ([sStock] for
    [sellProducts], [nStock] for [providerProducts]) computes NaN, passes
    the floor test, and is refused by [save]: on a stored product the
    answer is 500 with a validation error on [stock], and the collection
    is left as it was. *)
Theorem quantity_missing (req : Request) (env : Env) (db : Collection)
    (product : Stored) :
  validate (headers_authorization req) (Date_now env) = Ok Accepted →
  db !! params_id req = Some product →
  (body req !! "sStock" = None →
   ∃ failed,
     "stock" ∈ failed ∧
     sellProducts req env db =
     (res_status_json 500
        [("state", JBool false);
         ("message", message (ValidationError failed))], db)) ∧
  (body req !! "nStock" = None →
   ∃ failed,
     "stock" ∈ failed ∧
     providerProducts req env db =
     (res_status_json 500
        [("state", JBool false);
         ("message", message (ValidationError failed))], db)).
Proof.
  intros Hgate Hfound. split; intros Hmissing.
  - pose proof (sub_nan_r (stock (hydrate (params_id req) product))) as Hnan.
    pose proof (stock_NaN_invalid (stored_model product)
                  (stored_fields product) _ Hnan) as Hbad.
    eexists. split; [exact Hbad |].
    enter_gate Hgate. load_product Hfound. rewrite Hmissing.
    cbn [to_number]. rewrite (lt_nan_l _ _ Hnan).
    by rewrite (doc_save_invalid
                  (set_stock (hydrate (params_id req) product) _) db
                  "stock" Hbad).
  - pose proof (add_nan_r (stock (hydrate (params_id req) product))) as Hnan.
    pose proof (stock_NaN_invalid (stored_model product)
                  (stored_fields product) _ Hnan) as Hbad.
    eexists. split; [exact Hbad |].
    enter_gate Hgate. load_product Hfound. rewrite Hmissing.
    cbn [to_number].
    by rewrite (doc_save_invalid
                  (set_stock (hydrate (params_id req) product) _) db
                  "stock" Hbad).
Qed.

(** *** Signing in *)

Lemma findOne_None (m : string) (users : list User) :
  findOne m users = None ↔ ∀ u, u ∈ users → User_mail u ≠ m.
Proof.
  unfold findOne. induction users as [| u users IH]; cbn.
  - split; [| done]. intros _ u Hu. by apply not_elem_of_nil in Hu.
  - destruct (String.eqb_spec (User_mail u) m) as [Heq | Hne].
    + split; [discriminate |]. intros Hall.
      destruct (Hall u (list_elem_of_here _ _) Heq).
    + rewrite IH. split.
      * intros Hall u' [-> | Hu']%elem_of_cons; [done | by apply Hall].
      * intros Hall u' Hu'. apply Hall. by apply list_elem_of_further.
Qed.

(** X7. [loggin] tells its failures apart: it answers 403 exactly when no
    user has the mail, and 404 exactly when the first user with the mail
    has another password. It hands out a token exactly when that user has
    the password and signing succeeds; the token is then the signature of
    the subject "Token", the password and the instant plus 1,800,000 ms,
    and the status is 200. *)
Theorem loggin_outcomes (req : SigninRequest) (now : Z) (users : list User) :
  (status (loggin req now users) = 403 ↔
   ∀ u, u ∈ users → User_mail u ≠ body_mail req) ∧
  (status (loggin req now users) = 404 ↔
   ∃ u, findOne (body_mail req) users = Some u ∧
        User_password u ≠ body_password req) ∧
  (∀ token,
     token_of (loggin req now users) = Some token ↔
     (∃ u, findOne (body_mail req) users = Some u ∧
           User_password u = body_password req) ∧
     jwt_sign {| sub := "Token"; payload_password := body_password req;
                 exp := now + 1800000 |} key = Ok token) ∧
  (status (loggin req now users) = 200 ↔
   is_Some (token_of (loggin req now users))).
Proof.
  rewrite <- findOne_None. unfold loggin. cbv zeta.
  change (now + 60 * 30000) with (now + 1800000).
  destruct (findOne (body_mail req) users) as [u |] eqn:Hu;
    [destruct (String.eqb_spec (User_password u) (body_password req))
       as [Hpw | Hpw];
     [destruct (jwt_sign _ key) as [tok | err] eqn:Hsign |] |];
    cbn [try_catch mbind Result_bind];
    repeat match goal with
      | |- context [token_of ?r] =>
          let v := eval vm_compute in (token_of r) in
          change (token_of r) with v
      end;
    cbn [status res_status_json];
    split_and!; try done; try (by intros [? ?]);
    intros; (split; intros);
    repeat match goal with
      | H : _ ∧ _ |- _ => destruct H
      | H : ∃ _, _ |- _ => destruct H
      end;
    simplify_eq; eauto.
Qed.

(** *** Reading the header *)

Lemma split_space_nonempty (s : string) : Js.split_space s ≠ [].
Proof.
  destruct s as [| c s]; cbn; [done |].
  destruct (Ascii.eqb c " "); [done |]. by destruct (Js.split_space s).
Qed.

Lemma split_space_prefix (a b : string) :
  Js.split_space a = [a] →
  Js.split_space (a +:+ " " +:+ b) = a :: Js.split_space b.
Proof.
  induction a as [| c a IH]; intros Ha; [reflexivity |].
  change (String c a +:+ " " +:+ b) with (String c (a +:+ " " +:+ b)).
  cbn [Js.split_space] in *.
  destruct (Ascii.eqb c " ").
  - injection Ha as _ Ha. by apply split_space_nonempty in Ha.
  - destruct (Js.split_space a) as [| seg segs] eqn:Hsplit.
    + by apply split_space_nonempty in Hsplit.
    + injection Ha as -> ->. by rewrite (IH eq_refl).
Qed.

(** X8. [validate] reads the second space-separated segment of the header
    and nothing else. The scheme in front of the token is not compared with
    "Bearer", whatever follows the token is ignored, and a header without a
    space, a bare token for one, hands [undefined] to [jwt.verify] and
    fails as that call fails. *)
Theorem validate_reads_second_segment (token : string) (now : Z) :
  Js.split_space token = [token] →
  (∀ scheme,
     Js.split_space scheme = [scheme] →
     validate (Some (scheme +:+ " " +:+ token)) now =
     validate (Some ("Bearer " +:+ token)) now) ∧
  (∀ rest,
     validate (Some ("Bearer " +:+ token +:+ " " +:+ rest)) now =
     validate (Some ("Bearer " +:+ token)) now) ∧
  (∀ err,
     jwt_decode None key = Throw err →
     validate (Some token) now = Throw err).
Proof.
  intros Htoken.
  assert (Hbearer : Js.split_space "Bearer" = ["Bearer"]) by reflexivity.
  unfold validate. cbv zeta. repeat split.
  - intros scheme Hscheme.
    change ("Bearer " +:+ token) with ("Bearer" +:+ " " +:+ token).
    by rewrite !split_space_prefix, Htoken.
  - intros rest.
    change ("Bearer " +:+ token +:+ " " +:+ rest)
      with ("Bearer" +:+ " " +:+ (token +:+ " " +:+ rest)).
    change ("Bearer " +:+ token) with ("Bearer" +:+ " " +:+ token).
    by rewrite !split_space_prefix, Htoken.
  - intros err Hundefined. rewrite Htoken. unfold jwt_verify. cbn.
    by rewrite Hundefined.
Qed.

(** X9. The verdict of [validate] on a header moves one way with the
    clock: a header accepted at an instant is accepted at every earlier
    one, a header that is not accepted is not accepted at any later
    instant, and a header missing at one instant is missing at all. *)
Theorem validate_monotone (aux : option string) (now now' : Z) :
  now' ≤ now →
  (validate aux now = Ok Accepted → validate aux now' = Ok Accepted) ∧
  (validate aux now' ≠ Ok Accepted → validate aux now ≠ Ok Accepted) ∧
  (validate aux now' = Throw TokenExpiredError →
   validate aux now = Throw TokenExpiredError) ∧
  (validate aux now = Ok NotLogged ↔ aux = None).
Proof.
  intros Hle.
  assert (Hsec : now' / 1000 ≤ now / 1000) by (apply Z.div_le_mono; lia).
  unfold validate, jwt_verify. destruct aux as [aux |]; [| by repeat split].
  cbv zeta. destruct (jwt_decode _ key) as [payload | err']; cbn.
  - destruct (Z.geb_spec (now / 1000) (exp payload)),
      (Z.geb_spec (now' / 1000) (exp payload)); cbn;
      try destruct (Z.gtb_spec now (exp payload));
      try destruct (Z.gtb_spec now' (exp payload));
      repeat split; try done; lia.
  - by repeat split.
Qed.

(** X10. A header whose second segment [jwt.verify] refuses, a forged or
    garbled token for one, or a token presented when the clock in seconds
    has reached its expiration, makes every gated operation answer 500
    with the message of the thrown error, not 401, and leave the
    collection as it was. *)
Theorem rejected_token_is_500 (op : Operation) (req : Request) (env : Env)
    (db : Collection) (aux : string) :
  gated op = true →
  headers_authorization req = Some aux →
  (∀ err,
     jwt_decode (Js.split_space aux !! 1%nat) key = Throw err →
     handle op req env db =
     (res_status_json 500 [("state", JBool false); ("message", message err)],
      db)) ∧
  (∀ payload,
     jwt_decode (Js.split_space aux !! 1%nat) key = Ok payload →
     exp payload ≤ Date_now env / 1000 →
     handle op req env db =
     (res_status_json 500
        [("state", JBool false); ("message", message TokenExpiredError)],
      db)).
Proof.
  intros Hgated Haux. split.
  - intros err Hdecode. apply gate_throws; [done |].
    rewrite Haux. unfold validate, jwt_verify. cbv zeta. by rewrite Hdecode.
  - intros payload Hdecode Hdead. apply gate_throws; [done |].
    rewrite Haux. unfold validate, jwt_verify. cbv zeta. rewrite Hdecode.
    cbn [mbind Result_bind].
    by rewrite (proj2 (Z.geb_le _ _) Hdead).
Qed.

(** *** Deleting, creating and listing *)

Lemma eliminate_found (req : Request) (env : Env) (db : Collection)
    (product : Stored) :
  validate (headers_authorization req) (Date_now env) = Ok Accepted →
  db !! params_id req = Some product →
  eliminate req env db =
  (res_status_json 200
     [("state", JBool true);
      ("data",
       JDeleteResult {| acknowledged := true; deletedCount := 1 |})],
   delete (params_id req) db).
Proof. intros Hgate Hfound. enter_gate Hgate. by load_product Hfound. Qed.

Lemma eliminate_missing (req : Request) (env : Env) (db : Collection) :
  validate (headers_authorization req) (Date_now env) = Ok Accepted →
  db !! params_id req = None →
  eliminate req env db =
  (res_status_json 404
     [("state", JBool false); ("message", JString "ID Company Not Found");
      ("data", JNull)], db).
Proof. intros Hgate Hmissing. enter_gate Hgate. by load_product Hmissing. Qed.


Lemma save_persistable (req : Request) (env : Env) (db : Collection) :
  validate (headers_authorization req) (Date_now env) = Ok Accepted →
  persistable (Registry.resolve (body req) (fresh_id env)) db →
  save req env db =
  (res_status_json 201
     [("state", JBool true);
      ("data", JDocument (saved (Registry.resolve (body req) (fresh_id env))))],
   <[fresh_id env := to_stored (Registry.resolve (body req) (fresh_id env))]>
     db).
Proof.
  intros Hgate Hok. enter_gate Hgate. rewrite save_product_resolve.
  by rewrite (doc_save_persistable _ _ Hok).
Qed.

(** X11. [eliminate] of a stored product answers 200 with a deletion
    count of 1 and removes that record and no other; a later [getById] of
    the identifier answers with null data and a second [eliminate] answers
    404. For an identifier with no record, [eliminate] answers 404 and
    leaves the collection as it was. *)
Theorem eliminate_removes (req : Request) (env env' : Env)
    (db : Collection) :
  validate (headers_authorization req) (Date_now env) = Ok Accepted →
  validate (headers_authorization req) (Date_now env') = Ok Accepted →
  (∀ product,
     db !! params_id req = Some product →
     eliminate req env db =
     (res_status_json 200
        [("state", JBool true);
         ("data",
          JDeleteResult {| acknowledged := true; deletedCount := 1 |})],
      delete (params_id req) db) ∧
     (∀ k, k ≠ params_id req →
           (eliminate req env db).2 !! k = db !! k) ∧
     property "data" (json (getById req env' (eliminate req env db).2).1)
     = Some JNull ∧
     status (eliminate req env' (eliminate req env db).2).1 = 404) ∧
  (db !! params_id req = None →
   eliminate req env db =
   (res_status_json 404
      [("state", JBool false); ("message", JString "ID Company Not Found");
       ("data", JNull)], db)).
Proof.
  intros Hgate Hgate'. split.
  - intros product Hfound. rewrite (eliminate_found _ _ _ _ Hgate Hfound).
    cbn [snd]. split; [done |]. split.
    + intros k Hk. by rewrite lookup_delete_ne.
    + rewrite eliminate_missing by (done || apply lookup_delete_eq).
      unfold getById, findById. cbv zeta. by rewrite lookup_delete_eq.
  - by apply eliminate_missing.
Qed.


(** X13. Creating and then deleting a product restores the collection:
    after a [save] that was accepted, [eliminate] of the new [_id] answers
    200 and the collection is the one before the [save]. *)
Theorem save_then_eliminate (req del : Request) (env env' : Env)
    (db : Collection) :
  validate (headers_authorization req) (Date_now env) = Ok Accepted →
  validate (headers_authorization del) (Date_now env') = Ok Accepted →
  persistable (Registry.resolve (body req) (fresh_id env)) db →
  params_id del = fresh_id env →
  status (eliminate del env' (save req env db).2).1 = 200 ∧
  (eliminate del env' (save req env db).2).2 = db.
Proof.
  intros Hgate Hgate' Hok Hdel.
  rewrite (save_persistable _ _ _ Hgate Hok). cbn [snd].
  rewrite (eliminate_found del env' _
             (to_stored (Registry.resolve (body req) (fresh_id env))) Hgate')
    by (rewrite Hdel; apply lookup_insert_eq).
  split; [done |]. cbn [snd]. rewrite Hdel. apply delete_insert_id.
  destruct Hok as (_ & _ & Hfresh). by apply Hfresh.
Qed.

Lemma id_declared (m : Model) :
  ("id", {| type := TNumber; required := true; default := None |})
  ∈ schema_of m.
Proof. unfold schema_of. apply elem_of_app. left. apply list_elem_of_here. Qed.

Lemma resolve_id (b : Body) (oid : ObjectId) :
  fields (Registry.resolve b oid) !! "id" = b !! "id".
Proof.
  unfold Registry.resolve, new_from, new. cbn [fields].
  rewrite (construct_declared _ _ _ _ (schema_paths_NoDup _) (id_declared _)).
  unfold lookup at 2, Body_lookup. by destruct (object b !! "id").
Qed.

(** X14. The unique index on [id]: when a stored product already has the
    [id] of the body, [save] of a body that is otherwise valid answers 500
    with the duplicate-key error and leaves the collection as it was. *)
Theorem save_duplicate_id (req : Request) (env : Env) (db : Collection)
    (oid : ObjectId) (other : Stored) (n : float) :
  validate (headers_authorization req) (Date_now env) = Ok Accepted →
  validation_errors
    (schema_of (model (Registry.resolve (body req) (fresh_id env))))
    (fields (Registry.resolve (body req) (fresh_id env))) = [] →
  db !! oid = Some other →
  oid ≠ fresh_id env →
  body req !! "id" = Some (VNum n) →
  stored_fields other !! "id" = Some (VNum n) →
  save req env db =
  (res_status_json 500
     [("state", JBool false); ("message", message DuplicateKeyError)], db).
Proof.
  intros Hgate Hvalid Hother Hne Hid Hsame. enter_gate Hgate.
  rewrite save_product_resolve. unfold doc_save. rewrite Hvalid.
  rewrite decide_True; [done |].
  exists oid, other. rewrite resolve_id, Hid, Hsame.
  repeat split; [done | done |]. cbn [same_key]. apply strict_eq_refl.
  apply body_number_finite in Hid. unfold PrimFloat.is_finite in Hid.
  apply negb_true_iff, orb_false_iff in Hid. by destruct Hid.
Qed.




(** X18. An update of the same variant replaces the stock too: after an
    [actualize] that was accepted, on a record that holds a stock, the
    stock is the one of the body, and 50 when the body has none, whatever
    it was before. *)
Theorem actualize_resets_stock (req : Request) (env : Env) (db : Collection)
    (product : Stored) :
  validate (headers_authorization req) (Date_now env) = Ok Accepted →
  db !! params_id req = Some product →
  is_Some (stored_fields product !! "stock") →
  persistable
    (overwrite (hydrate (params_id req) product)
       (Registry.resolve (body req) (fresh_id env))) db →
  ((actualize req env db).2 !! params_id req)
    ≫= (λ p, stored_fields p !! "stock")
  = Some (match body req !! "stock" with
          | Some v => v
          | None => VNum 50%float
          end).
Proof.
  intros Hgate Hfound [old Hold] Hok.
  rewrite <- actualize_productN_resolve in Hok.
  rewrite (actualize_found _ _ _ _ Hgate Hfound Hok). cbn [snd].
  rewrite lookup_insert_eq, actualize_productN_resolve.
  cbn [mbind option_bind to_stored stored_fields].
  rewrite overwrite_lookup. cbn [hydrate fields model]. rewrite Hold.
  rewrite bool_decide_eq_true_2.
  - unfold Registry.resolve, new_from, new. cbn [fields].
    rewrite (construct_declared _ _ _ _ (schema_paths_NoDup _)
               (stock_declared _)).
    unfold lookup at 2, Body_lookup. by destruct (object (body req) !! "stock").
  - apply list_elem_of_fmap. eexists. split; [| apply stock_declared]. done.
Qed.

End Controllers.

(** ** The theorems at the sample data *)

Import Sample.

Lemma sellProducts_floor_witness :
  sellProducts secret verify (sell 6%float) (env 5000) db =
  (res_status_json 400
     [("state", JBool false); ("message", JString "Stock is less than 5");
      ("data", JNull)], db) ∧
  (sellProducts secret verify (sell 3%float) (env 5000) db).2 =
  <[7%N := with_stock laptop 7%float]> db ∧
  (sellProducts secret verify (sell 0.5%float) (env 5000) db).2 =
  <[7%N := with_stock laptop 9.5%float]> db.
Proof.
  split; [| split].
  - destruct (sellProducts_floor secret verify (sell 6%float) (env 5000) db
                laptop 10%float 6%float) as (Hlow & _ & _);
      [by vm_compute .. |].
    apply Hlow. by vm_compute.
  - destruct (sellProducts_floor secret verify (sell 3%float) (env 5000) db
                laptop 10%float 3%float) as (_ & Hhigh & _);
      [by vm_compute .. |].
    rewrite Hhigh; [by vm_compute | by vm_compute | sample_persistable].
  - destruct (sellProducts_floor secret verify (sell 0.5%float) (env 5000) db
                laptop 10%float 0.5%float) as (_ & Hhigh & _);
      [by vm_compute .. |].
    rewrite Hhigh; [by vm_compute | by vm_compute | sample_persistable].
Defined.

Lemma providerProducts_adds_witness :
  (providerProducts secret verify (restock (-30)%float) (env 5000) db).2 =
  <[7%N := with_stock laptop (-20)%float]> db ∧
  providerProducts secret verify
    (request 9%N bearer (Body_of {[ "nStock" := VNum 4%float ]})) (env 5000)
    db =
  (res_status_json 404
     [("state", JBool false); ("message", JString "ID Product Not Found");
      ("data", JNull)], db).
Proof.
  split.
  - destruct (providerProducts_adds secret verify (restock (-30)%float)
                (env 5000) db (-30)%float) as (Hfound & _);
      [by vm_compute .. |].
    rewrite (Hfound laptop 10%float);
      [by vm_compute | by vm_compute | by vm_compute | sample_persistable].
  - destruct (providerProducts_adds secret verify
                (request 9%N bearer (Body_of {[ "nStock" := VNum 4%float ]}))
                (env 5000) db 4%float) as (_ & Hmissing); [by vm_compute .. |].
    apply Hmissing. by vm_compute.
Defined.







Lemma gate_guards_operations_witness :
  save secret verify (request 0%N None laptop_body) (env 5000) db =
  (res_status_json 401
     [("error",
       JString
         "The session has not been logged in or the token has not been entered.")],
   db) ∧
  getAll (request 0%N bearer ∅) (env 9000000) db =
  getAll (request 0%N None ∅) (env 5000) db.
Proof.
  split.
  - destruct (proj1 (proj1 (gate_guards_operations secret verify Save
                              (request 0%N None laptop_body) (env 5000) db)
                       eq_refl) NotLogged eq_refl)
      as (reason & Hreason & Hsave); [done |].
    injection Hreason as <-. exact Hsave.
  - exact (proj2 (gate_guards_operations secret verify GetAll
                    (request 0%N None ∅) (env 5000) db)
             eq_refl bearer 9000000).
Defined.





Lemma getById_missing_is_success_witness :
  getById (request 9%N None ∅) (env 5000) db =
  (res_status_json 200 [("state", JBool true); ("data", JNull)], db).
Proof.
  apply (getById_missing_is_success (request 9%N None ∅) (env 5000) db).
  by vm_compute.
Defined.

Lemma unauthorized_response_lacks_state_witness :
  well_shaped
    (save secret verify (request 0%N None laptop_body) (env 5000) db).1
  = false.
Proof.
  apply (unauthorized_response_lacks_state secret verify Save
           (request 0%N None laptop_body) (env 5000) db);
    reflexivity.
Defined.

(** ** The further properties at the sample data *)

Lemma handle_frame_witness :
  (handle secret verify SellProducts (sell 3%float) (env 5000) pantry).2
    !! 9%N = pantry !! 9%N.
Proof.
  by apply (handle_frame secret verify SellProducts (sell 3%float)
              (env 5000) pantry 9%N).
Defined.

Lemma handle_consistent_witness :
  consistent
    (handle secret verify Eliminate (request 7%N bearer ∅) (env 5000)
       pantry).2.
Proof.
  apply (handle_consistent secret verify Eliminate (request 7%N bearer ∅)
           (env 5000) pantry).
  sample_consistent.
Defined.

Lemma sellProducts_keeps_floor_witness :
  ∃ n,
    ((sellProducts secret verify (sell 3%float) (env 5000) db).2 !! 7%N)
      ≫= (λ p, stored_fields p !! "stock") = Some (VNum n) ∧
    Js.le 5%float n = true.
Proof.
  apply (sellProducts_keeps_floor secret verify (sell 3%float) (env 5000) db).
  by vm_compute.
Defined.

Lemma quantity_missing_witness :
  ∃ failed,
    "stock" ∈ failed ∧
    sellProducts secret verify (request 7%N bearer ∅) (env 5000) db =
    (res_status_json 500
       [("state", JBool false);
        ("message", message (ValidationError failed))], db).
Proof.
  destruct (quantity_missing secret verify (request 7%N bearer ∅) (env 5000)
              db laptop) as [Hsell _]; [by vm_compute | by vm_compute |].
  apply Hsell. by vm_compute.
Defined.

Lemma validate_reads_second_segment_witness :
  validate secret verify (Some ("Token " +:+ token)) 5000 =
  validate secret verify bearer 5000.
Proof.
  exact (proj1 (validate_reads_second_segment secret verify token 5000
                  eq_refl) "Token" eq_refl).
Defined.

Lemma validate_monotone_witness :
  validate secret verify bearer 5000 = Ok Accepted.
Proof.
  apply (proj1 (validate_monotone secret verify bearer 6000 5000
                  ltac:(lia))).
  by vm_compute.
Defined.

Lemma rejected_token_is_500_witness :
  handle secret verify Save (request 0%N (Some "Bearer forged") laptop_body)
    (env 5000) db =
  (res_status_json 500
     [("state", JBool false);
      ("message", message (JwtError "invalid signature"))], db).
Proof.
  apply (proj1 (rejected_token_is_500 secret verify Save
                  (request 0%N (Some "Bearer forged") laptop_body)
                  (env 5000) db "Bearer forged" eq_refl eq_refl)).
  by vm_compute.
Defined.

Lemma eliminate_removes_witness :
  eliminate secret verify (request 7%N bearer ∅) (env 5000) db =
  (res_status_json 200
     [("state", JBool true);
      ("data", JDeleteResult {| acknowledged := true; deletedCount := 1 |})],
   delete 7%N db).
Proof.
  apply (proj1 (eliminate_removes secret verify (request 7%N bearer ∅)
                  (env 5000) (env 6000) db ltac:(by vm_compute)
                  ltac:(by vm_compute)) laptop).
  by vm_compute.
Defined.


Lemma save_then_eliminate_witness :
  (eliminate secret verify (request 8%N bearer ∅) (env 6000)
     (save secret verify (request 0%N bearer yogurt_body) (env 5000) db).2).2
  = db.
Proof.
  apply (save_then_eliminate secret verify (request 0%N bearer yogurt_body)
           (request 8%N bearer ∅) (env 5000) (env 6000) db).
  - by vm_compute.
  - by vm_compute.
  - split; [by vm_compute | split; [by_computation |]].
    intros _. by vm_compute.
  - reflexivity.
Defined.

Lemma save_duplicate_id_witness :
  save secret verify (request 0%N bearer laptop_body) (env 5000) db =
  (res_status_json 500
     [("state", JBool false); ("message", message DuplicateKeyError)], db).
Proof.
  apply (save_duplicate_id secret verify (request 0%N bearer laptop_body)
           (env 5000) db 7%N laptop 1001%float); by vm_compute.
Defined.


Lemma actualize_resets_stock_witness :
  ((actualize secret verify (request 7%N bearer tablet_body) (env 5000) db).2
     !! 7%N) ≫= (λ p, stored_fields p !! "stock")
  = Some (VNum 50%float).
Proof.
  refine (eq_trans
            (actualize_resets_stock secret verify
               (request 7%N bearer tablet_body) (env 5000) db laptop
               _ _ _ _) _).
  - by vm_compute.
  - by vm_compute.
  - eexists. by vm_compute.
  - sample_persistable.
  - by vm_compute.
Defined.
